(** * ne_span: named-entity spans over a text document

    A shallow embedding of [ne_span/ne_span.py]: the two label enumerations
    with their classifier-label tables, the [_Subspannable] interface with
    its two implementations [NEDoc] and [NESpan], slicing by character
    offset and by word index, the walk up the ownership chain, hashing and
    serialisation.

    Python values are embedded as follows.
    - [int] is [Z].
    - A [str] that is data (the text of a document, the label of a span) is
      the list of its code points, [pystr]: Python indexes and slices a
      string by code point.
    - A [str] that is only looked up (a classifier label given to a mapping
      table, an attribute name, a key of the serialised dict) or shown (the
      message of an exception) is a [string] holding its UTF-8 encoding; two
      such strings are equal exactly when the Python strings are.
    - [None]-or-a-value is [option].
    - A raised exception is the left summand of [exn + A].
    - Documents and spans are never modified once built, so an object is
      the value of its fields, and a reference to an object is that value. *)

From stdpp Require Import base numbers option list sorting strings gmap fin_maps pretty.
From Stdlib Require Import ZArith Lia.

Local Open Scope Z_scope.

(** ** Python scaffolding *)

Module Py.

Definition codepoint := N.
Definition pystr := list codepoint.

(** An ASCII literal as a Python string: for ASCII text, code points and
    bytes coincide. *)
Definition str (s : string) : pystr :=
  (fun a => N.of_nat (Ascii.nat_of_ascii a)) <$> String.list_ascii_of_string s.

(** [len(x)] *)
Definition len {A} (l : list A) : Z := Z.of_nat (length l).

(** A [slice(start, stop, step)] object whose components are integers or
    [None]. *)
Record slice := Slice { start : option Z; stop : option Z; step : option Z }.

(** The exceptions this module can raise. *)
Inductive exn :=
| TypeError (msg : string)
| IndexError (msg : string)
| KeyError (key : string)
| AttributeError (name : string)
| ValueError (msg : string).

Definition result (A : Type) := (exn + A)%type.
Definition ret {A} (a : A) : result A := inr a.
Definition raise {A} (e : exn) : result A := inl e.
Definition bind {A B} (m : result A) (k : A → result B) : result B :=
  match m with inl e => inl e | inr a => k a end.

(** [x or 0] for [x] an integer or [None]: [None] and [0] are falsy. *)
Definition or_0 (x : option Z) : Z :=
  match x with
  | None => 0
  | Some v => if decide (v = 0) then 0 else v
  end.

(** *** Slicing a sequence

    [slice.indices(length)] as CPython computes it ([PySlice_Unpack]
    followed by [PySlice_AdjustIndices]), over unbounded integers. *)

Definition adjust_index (length step i : Z) : Z :=
  if decide (i < 0) then
    let i' := i + length in
    if decide (i' < 0) then (if decide (step < 0) then -1 else 0) else i'
  else if decide (length ≤ i) then
    (if decide (step < 0) then length - 1 else length)
  else i.

Definition slice_indices (s : slice) (length : Z) : result (Z * Z * Z) :=
  let st := default 1 (step s) in
  if decide (st = 0) then raise (ValueError "slice step cannot be zero")
  else
    let lo := match start s with
              | None => if decide (st < 0) then length - 1 else 0
              | Some i => adjust_index length st i
              end in
    let hi := match stop s with
              | None => if decide (st < 0) then -1 else length
              | Some i => adjust_index length st i
              end in
    ret (lo, hi, st).

(** The number of selected positions. *)
Definition slice_length (lo hi st : Z) : Z :=
  if decide (st < 0) then
    (if decide (hi < lo) then (lo - hi - 1) / (- st) + 1 else 0)
  else
    (if decide (lo < hi) then (hi - lo - 1) / st + 1 else 0).

(** The selected positions, in selection order. *)
Definition slice_positions (lo hi st : Z) : list Z :=
  (fun i => lo + i * st) <$> seqZ 0 (slice_length lo hi st).

(** [seq[s]] for a list or a string [seq] and a slice [s]. *)
Definition getslice {A} (l : list A) (s : slice) : result (list A) :=
  bind (slice_indices s (len l)) (fun '(lo, hi, st) =>
    ret (omap (fun i => l !! Z.to_nat i) (slice_positions lo hi st))).

(** [seq[a:b]] with integer [a] and [b]: no step, so no error. *)
Definition getslice2 {A} (l : list A) (a b : Z) : list A :=
  let lo := adjust_index (len l) 1 a in
  let hi := adjust_index (len l) 1 b in
  omap (fun i => l !! Z.to_nat i) (slice_positions lo hi 1).

(** [seq[i]] for an integer [i]: a negative index counts from the end. *)
Definition getitem {A} (l : list A) (i : Z) : result A :=
  let i' := if decide (i < 0) then i + len l else i in
  if decide (0 ≤ i') then
    match l !! Z.to_nat i' with
    | Some x => ret x
    | None => raise (IndexError "list index out of range")
    end
  else raise (IndexError "list index out of range").

(** The values a caller can pass where the code tests the argument's
    type: [None], integers, strings, tuples, lists, slices, and an
    instance of any other class, known by its type's name. *)
#[local] Set Warnings "-register-all".
Inductive pyobj :=
| PyNone
| PyInt (z : Z)
| PyStr (s : pystr)
| PyTuple (items : list pyobj)
| PyList (items : list pyobj)
| PySlice (s : slice)
| PyObject (type_name : string).

(** [isinstance(x, slice)] *)
Definition isinstance_slice (x : pyobj) : bool :=
  match x with PySlice _ => true | _ => false end.

(** [repr] of an integer-or-None and of a slice, for messages. *)
Definition repr_opt_int (x : option Z) : string :=
  match x with None => "None" | Some v => pretty v end.

Definition repr_slice (s : slice) : string :=
  "slice(" +:+ repr_opt_int (start s) +:+ ", " +:+ repr_opt_int (stop s)
    +:+ ", " +:+ repr_opt_int (step s) +:+ ")".

End Py.

Import Py.

(** ** Label classification *)

(** Keys are the named-entity labels of the models, values are attribute
    names of [RefPartType]. *)
Definition LABEL_TO_REF_PART_TYPE_ATTR_items : list (string * string) :=
  [ (* HE *)
    ("כותרת", "NAMED");
    ("מספר", "NUMBERED");
    ("דה", "DH");
    ("סימן-טווח", "RANGE_SYMBOL");
    ("לקמן-להלן", "RELATIVE");
    ("שם", "IBID");
    ("לא-רציף", "NON_CTS");
    (* EN *)
    ("title", "NAMED");
    ("number", "NUMBERED");
    ("DH", "DH");
    ("range-symbol", "RANGE_SYMBOL");
    ("dir-ibid", "RELATIVE");
    ("ibid", "IBID");
    ("non-cts", "NON_CTS") ].

Definition LABEL_TO_REF_PART_TYPE_ATTR : gmap string string :=
  list_to_map LABEL_TO_REF_PART_TYPE_ATTR_items.

(** Keys are the named-entity labels of the spacy models, values are
    attribute names of [NamedEntityType]. *)
Definition LABEL_TO_NAMED_ENTITY_TYPE_ATTR_items : list (string * string) :=
  [ (* HE *)
    ("מקור", "CITATION");
    ("בן-אדם", "PERSON");
    ("קבוצה", "GROUP");
    (* EN *)
    ("Person", "PERSON");
    ("Group", "GROUP");
    ("Citation", "CITATION") ].

Definition LABEL_TO_NAMED_ENTITY_TYPE_ATTR : gmap string string :=
  list_to_map LABEL_TO_NAMED_ENTITY_TYPE_ATTR_items.

Module NamedEntityType.

Inductive t := PERSON | GROUP | CITATION.

Definition name (m : t) : string :=
  match m with
  | PERSON => "PERSON" | GROUP => "GROUP" | CITATION => "CITATION"
  end.

Definition value (m : t) : string :=
  match m with
  | PERSON => "person" | GROUP => "group" | CITATION => "citation"
  end.

Definition members : list t := [PERSON; GROUP; CITATION].

(** [getattr(cls, attr)] for the name of a member; any other name is
    reported as missing. *)
Definition getattr (attr : string) : result t :=
  match list_find (fun m => name m = attr) members with
  | Some (_, m) => ret m
  | None => raise (AttributeError attr)
  end.

(** Convert span label from spacy named entity to NamedEntityType. *)
Definition span_label_to_enum (span_label : string) : result t :=
  match LABEL_TO_NAMED_ENTITY_TYPE_ATTR !! span_label with
  | None => raise (KeyError span_label)
  | Some attr => getattr attr
  end.

End NamedEntityType.

Module RefPartType.

Inductive t :=
| NAMED | NUMBERED | DH | RANGE_SYMBOL | RANGE | RELATIVE | IBID | NON_CTS.

Definition name (m : t) : string :=
  match m with
  | NAMED => "NAMED" | NUMBERED => "NUMBERED" | DH => "DH"
  | RANGE_SYMBOL => "RANGE_SYMBOL" | RANGE => "RANGE"
  | RELATIVE => "RELATIVE" | IBID => "IBID" | NON_CTS => "NON_CTS"
  end.

Definition value (m : t) : string :=
  match m with
  | NAMED => "named" | NUMBERED => "numbered" | DH => "dibur_hamatchil"
  | RANGE_SYMBOL => "range_symbol" | RANGE => "range"
  | RELATIVE => "relative" | IBID => "ibid" | NON_CTS => "non_cts"
  end.

Definition members : list t :=
  [NAMED; NUMBERED; DH; RANGE_SYMBOL; RANGE; RELATIVE; IBID; NON_CTS].

Definition getattr (attr : string) : result t :=
  match list_find (fun m => name m = attr) members with
  | Some (_, m) => ret m
  | None => raise (AttributeError attr)
  end.

(** Convert span label from spacy named entity to RefPartType. *)
Definition span_label_to_enum (span_label : string) : result t :=
  match LABEL_TO_REF_PART_TYPE_ATTR !! span_label with
  | None => raise (KeyError span_label)
  | Some attr => getattr attr
  end.

End RefPartType.

(** ** The tokenizer collaborator *)

(** A token of the tokenizer's output: [token.idx], [len(token)] and
    [token.is_space]. *)
Record Token := { idx : Z; Token_len : Z; is_space : bool }.

(** ** Documents and spans *)

(** [NEDoc] holds the full text. *)
Record NEDoc := { NEDoc_text : pystr }.

(** The two implementations of [_Subspannable], and [NESpan] with its four
    private fields [__doc], [__start], [__end] and [__label].  A span holds
    a reference to an owner that exists before it and is never reassigned,
    so every ownership chain is finite and ends in a document. *)
Inductive Subspannable :=
| OfDoc (d : NEDoc)
| OfSpan (s : NESpan)
with NESpan :=
| MkNESpan (doc : Subspannable) (start end_ : Z) (label : option pystr).

Coercion OfDoc : NEDoc >-> Subspannable.
Coercion OfSpan : NESpan >-> Subspannable.

Module Span.
Definition doc (self : NESpan) : Subspannable :=
  let 'MkNESpan d _ _ _ := self in d.
Definition label (self : NESpan) : option pystr :=
  let 'MkNESpan _ _ _ l := self in l.
Definition range (self : NESpan) : Z * Z :=
  let 'MkNESpan _ a b _ := self in (a, b).
End Span.

(** The [text] property: a document returns its text, a span slices its
    owner's text afresh on every read. *)
Fixpoint text (self : Subspannable) : pystr :=
  match self with
  | OfDoc d => NEDoc_text d
  | OfSpan (MkNESpan owner a b _) => getslice2 (text owner) a b
  end.

(** [NESpan.__init__] *)
Definition NESpan_init (doc : Subspannable) (start end_ : option Z)
    (label : option pystr) : NESpan :=
  MkNESpan doc
    (or_0 start)
    (match end_ with Some e => e | None => len (text doc) end)
    label.

(** [_Subspannable.subspan] *)
Definition subspan (self : Subspannable) (item : pyobj)
    (span_label : option pystr) : result NESpan :=
  match item with
  | PySlice item =>
      let start := or_0 (Py.start item) in
      let end_ := Py.stop item in
      ret (NESpan_init self (Some start) end_ span_label)
  | _ => raise (TypeError "Item must be a slice")
  end.

(** [NESpan.get_range_relative_to_doc]: the loop
    [while hasattr(parent_span, "range")], by recursion on the chain. Only
    [NESpan] defines [range], so the test tells a span from a document. *)
Fixpoint walk_to_doc (parent_span : Subspannable) (start end_ : Z) : Z * Z :=
  match parent_span with
  | OfSpan (MkNESpan owner a _ _) => walk_to_doc owner (start + a) (end_ + a)
  | OfDoc _ => (start, end_)
  end.

Definition get_range_relative_to_doc (self : NESpan) : Z * Z :=
  let parent_span := Span.doc self in
  let '(start, end_) := Span.range self in
  walk_to_doc parent_span start end_.

(** The same loop with its iterations counted: the body runs at most [fuel]
    times, and the result tells on which object the loop stopped. *)
Fixpoint walk_loop (fuel : nat) (parent_span : Subspannable) (start end_ : Z)
    : option (Subspannable * (Z * Z)) :=
  match parent_span with
  | OfSpan parent =>
      match fuel with
      | O => None
      | S fuel =>
          walk_loop fuel (Span.doc parent)
            (start + (Span.range parent).1) (end_ + (Span.range parent).1)
      end
  | OfDoc _ => Some (parent_span, (start, end_))
  end.

(** [NESpan.serialize] *)
Definition py_label (l : option pystr) : pyobj :=
  match l with None => PyNone | Some s => PyStr s end.

Definition serialize (self : NESpan) (with_text : bool) : gmap string pyobj :=
  let data : gmap string pyobj :=
    <["label" := py_label (Span.label self)]>
      (<["range" := PyTuple [PyInt (Span.range self).1; PyInt (Span.range self).2]]> ∅) in
  if with_text then <["text" := PyStr (text self)]> data else data.

(** The tuple that [NESpan.__hash__] hands to [hash]. *)
Definition hash_key : Type := pystr * Z * Z * option pystr.

Definition hashed_tuple (self : NESpan) : hash_key :=
  (text (Span.doc self), (Span.range self).1, (Span.range self).2, Span.label self).

Section WithBuiltins.

(** The tokenizer, [TOKENIZER = get_tokenizer()], and the builtin [hash]
    on tuples. *)
Variable TOKENIZER : pystr → list Token.
Variable hash : hash_key → Z.

(** The cached property [__word_spans]: start and end character index of
    each word. The text of an object never changes, so the cache always
    holds this value. *)
Definition word_spans (self : Subspannable) : list (Z * Z) :=
  (fun token => (idx token, idx token + Token_len token))
    <$> filter (fun token => is_space token = false) (TOKENIZER (text self)).

(** [_Subspannable.word_length] *)
Definition word_length (self : Subspannable) : Z := len (word_spans self).

Definition out_of_range_message (word_slice : slice) (n : Z) : string :=
  "Word indices out of range: " +:+ repr_slice word_slice
    +:+ ". Document has " +:+ pretty n +:+ " words.".

(** [_Subspannable.subspan_by_word_indices] *)
Definition subspan_by_word_indices (self : Subspannable) (word_slice : slice)
    : result NESpan :=
  let spans := word_spans self in
  bind (getslice spans word_slice) (fun word_span_slice =>
  bind (match word_span_slice with
        | [] =>
            match Py.start word_slice with
            | Some s =>
                if decide (s > len spans)
                then raise (IndexError
                              (out_of_range_message word_slice (len (word_spans self))))
                else ret (0, 0)
            | None => ret (0, 0)
            end
        | _ =>
            bind (getitem word_span_slice 0) (fun first =>
            bind (getitem word_span_slice (-1)) (fun last =>
            ret (first.1, last.2)))
        end) (fun '(start_char, end_char) =>
  subspan self (PySlice (Slice (Some start_char) (Some end_char) None)) None)).

(** [NESpan.__hash__] *)
Definition NESpan_hash (self : NESpan) : Z := hash (hashed_tuple self).

End WithBuiltins.

(** Modelled from the spec: the tokenizer is the multilingual tokenizer of a
    third-party library, which is not part of this repository. The spec asks
    of it only an ordered sequence of tokens covering the input, each with a
    start offset and a length, whitespace-only tokens told apart. This one
    cuts the text into maximal runs of whitespace and of non-whitespace. It
    is used to run the code on concrete texts, never in a general theorem. *)
Definition is_whitespace (c : codepoint) : bool :=
  bool_decide (c = 32 ∨ (9 ≤ c ∧ c ≤ 13))%N.

Fixpoint runs_from (cs : pystr) (pos : Z) (cur : Token) : list Token :=
  match cs with
  | [] => [cur]
  | c :: cs' =>
      if bool_decide (is_whitespace c = is_space cur)
      then runs_from cs' (pos + 1)
             {| idx := idx cur; Token_len := Token_len cur + 1; is_space := is_space cur |}
      else cur :: runs_from cs' (pos + 1)
             {| idx := pos; Token_len := 1; is_space := is_whitespace c |}
  end.

Definition whitespace_tokenizer (s : pystr) : list Token :=
  match s with
  | [] => []
  | c :: cs => runs_from cs 1 {| idx := 0; Token_len := 1; is_space := is_whitespace c |}
  end.

(** Concrete documents and spans on which the code is run below. *)
Definition hello_doc : NEDoc := {| NEDoc_text := str "hello world foo" |}.
Definition spaced_doc : NEDoc := {| NEDoc_text := str "hello world  foo" |}.
Definition abc_doc : NEDoc := {| NEDoc_text := str "abc" |}.
Definition world_foo : NESpan := MkNESpan hello_doc 6 15 None.

(** Two documents that differ only after their first three characters, and
    spans of each that have the same text. *)
Definition abcX_doc : NEDoc := {| NEDoc_text := str "abcX" |}.
Definition abcY_doc : NEDoc := {| NEDoc_text := str "abcY" |}.
Definition ab_in_abcX : NESpan := MkNESpan (MkNESpan abcX_doc 0 3 None) 0 2 None.
Definition ab_in_abcY : NESpan := MkNESpan (MkNESpan abcY_doc 0 3 None) 0 2 None.

(** A hash without collisions, to tell what depends on the tuple hashed
    from what depends on the hash function. *)
Definition encode_hash (k : hash_key) : Z := Z.pos (encode k).

(** ** Notions used to state properties of the chain *)

(** [[a, b)] as the argument of [subspan]. *)
Definition half_open (a b : Z) : pyobj := PySlice (Slice (Some a) (Some b) None).

(** The document at the end of the ownership chain. *)
Fixpoint root_doc (x : Subspannable) : NEDoc :=
  match x with
  | OfDoc d => d
  | OfSpan (MkNESpan owner _ _ _) => root_doc owner
  end.

(** The number of spans between [x] and its document, [x] included. *)
Fixpoint depth (x : Subspannable) : nat :=
  match x with
  | OfDoc _ => 0
  | OfSpan (MkNESpan owner _ _ _) => S (depth owner)
  end.

(** The start offsets of [x] and of its ancestors, added up. *)
Fixpoint offset_in_doc (x : Subspannable) : Z :=
  match x with
  | OfDoc _ => 0
  | OfSpan (MkNESpan owner a _ _) => offset_in_doc owner + a
  end.

(** [owner.subspan(r1).subspan(r2)...] for half-open ranges [r1], [r2], ... *)
Fixpoint nest (owner : Subspannable) (ranges : list (Z * Z)) : result Subspannable :=
  match ranges with
  | [] => ret owner
  | (a, b) :: ranges =>
      bind (subspan owner (half_open a b) None) (fun s => nest (OfSpan s) ranges)
  end.

(** The invariant of the data model: [0 <= start <= end <= len(owner.text)]. *)
Definition span_invariant (s : NESpan) : Prop :=
  0 ≤ (Span.range s).1
  ∧ (Span.range s).1 ≤ (Span.range s).2
  ∧ (Span.range s).2 ≤ len (text (Span.doc s)).

(** What the code expects of the tokens of a text: each lies within the
    text, and they come in text order without overlapping. *)
Definition token_end (token : Token) : Z := idx token + Token_len token.

Definition tokens_in_text (tokens : list Token) (s : pystr) : Prop :=
  Forall (fun token => 0 ≤ idx token ∧ 0 ≤ Token_len token ∧ token_end token ≤ len s)
    tokens
  ∧ StronglySorted (fun t1 t2 => token_end t1 ≤ idx t2) tokens.

(** Reading back the text of a serialised span from its owner. *)
Definition text_of_serialized (owner : Subspannable) (data : gmap string pyobj)
    : option pyobj :=
  match data !! "range" with
  | Some (PyTuple [PyInt a; PyInt b]) => Some (PyStr (getslice2 (text owner) a b))
  | _ => None
  end.

(** The invariant along the whole chain, from a span up to its document. *)
Fixpoint chain_invariant (x : Subspannable) : Prop :=
  match x with
  | OfDoc _ => True
  | OfSpan (MkNESpan owner a b l) =>
      span_invariant (MkNESpan owner a b l) ∧ chain_invariant owner
  end.

(** The place of an object in its root document: all of it for a document,
    [get_range_relative_to_doc] for a span. *)
Definition range_in_doc (x : Subspannable) : Z * Z :=
  match x with
  | OfDoc d => (0, len (NEDoc_text d))
  | OfSpan s => get_range_relative_to_doc s
  end.


(** More documents and spans to run the code on. *)
Definition one_word_doc : NEDoc := {| NEDoc_text := str "hello" |}.
Definition empty_doc : NEDoc := {| NEDoc_text := [] |}.
Definition abcdef_doc : NEDoc := {| NEDoc_text := str "abcdef" |}.
Definition foo_in_world_foo : NESpan := MkNESpan world_foo 6 9 None.
Definition cde_in_abcdef : NESpan := MkNESpan abcdef_doc 2 5 None.

(** ** Facts about Python slicing *)

Section SliceFacts.
Context {A : Type}.
Implicit Types (l : list A) (a b lo hi st n : Z).

Lemma bind_ret {B C} (x : B) (k : B → result C) : bind (ret x) k = k x.
Proof. reflexivity. Qed.

Lemma or_0_Some a : or_0 (Some a) = a.
Proof. unfold or_0. case_decide; congruence. Qed.

Lemma len_nonneg l : 0 ≤ len l.
Proof. unfold len. lia. Qed.

Lemma adjust_index_forward n st i :
  0 ≤ n → 0 < st → 0 ≤ adjust_index n st i ≤ n.
Proof. intros. unfold adjust_index. repeat case_decide; lia. Qed.

Lemma adjust_index_backward n st i :
  0 ≤ n → st < 0 → -1 ≤ adjust_index n st i ≤ n - 1.
Proof. intros. unfold adjust_index. repeat case_decide; lia. Qed.

(** Reading consecutive positions is [take] after [drop]. *)
Lemma omap_lookup_seq l (lo k : nat) :
  (lo + k ≤ length l)%nat →
  omap (fun i => l !! Z.to_nat i) (seqZ (Z.of_nat lo) (Z.of_nat k))
  = take k (drop lo l).
Proof.
  revert lo. induction k as [|k IH]; intros lo Hle.
  - by rewrite seqZ_nil.
  - rewrite seqZ_cons; [|lia].
    destruct (lookup_lt_is_Some_2 l lo) as [x Hx]; [lia|].
    rewrite (drop_S _ _ _ Hx). cbn [omap list_omap take].
    rewrite Nat2Z.id, Hx.
    replace (Z.succ (Z.of_nat lo)) with (Z.of_nat (S lo)) by lia.
    replace (Z.pred (Z.of_nat (S k))) with (Z.of_nat k) by lia.
    rewrite IH by lia. done.
Qed.

Lemma slice_positions_step_1 lo hi :
  slice_positions lo hi 1 = seqZ lo (Z.max 0 (hi - lo)).
Proof.
  unfold slice_positions, slice_length.
  rewrite (decide_False (P := 1 < 0)) by lia.
  case_decide.
  - rewrite Z.div_1_r.
    replace (hi - lo - 1 + 1) with (Z.max 0 (hi - lo)) by lia.
    rewrite <- (Z.add_0_r lo) at 2. rewrite <- fmap_add_seqZ.
    apply list_fmap_ext. intros; lia.
  - rewrite !seqZ_nil by lia. done.
Qed.

Lemma positions_take_drop l lo hi :
  0 ≤ lo → hi ≤ len l →
  omap (fun i => l !! Z.to_nat i) (slice_positions lo hi 1)
  = take (Z.to_nat (hi - lo)) (drop (Z.to_nat lo) l).
Proof.
  intros Hlo Hhi. unfold len in Hhi. rewrite slice_positions_step_1.
  destruct (decide (lo < hi)) as [Hlt|Hge].
  - rewrite <- (Z2Nat.id lo) at 1 by lia.
    rewrite <- (Z2Nat.id (Z.max 0 (hi - lo))) by lia.
    rewrite omap_lookup_seq by lia.
    f_equal. lia.
  - rewrite seqZ_nil by lia.
    replace (Z.to_nat (hi - lo)) with 0%nat by lia. done.
Qed.

(** [l[a:b]] is a contiguous piece of [l]: both offsets are clamped to
    [0 .. len(l)] (after a negative one is counted from the end), so an
    offset past the end truncates and a start at or after the stop gives
    the empty sequence. *)
Lemma getslice2_take_drop l a b :
  let lo := adjust_index (len l) 1 a in
  let hi := adjust_index (len l) 1 b in
  getslice2 l a b = take (Z.to_nat (hi - lo)) (drop (Z.to_nat lo) l).
Proof.
  intros lo hi. unfold getslice2. fold lo hi.
  pose proof (adjust_index_forward (len l) 1 a (len_nonneg l) ltac:(lia)).
  pose proof (adjust_index_forward (len l) 1 b (len_nonneg l) ltac:(lia)).
  apply positions_take_drop; lia.
Qed.

(** The same for a slice without a step whose ends may be [None]. *)
Lemma getslice_step_None l (from to : option Z) :
  let lo := from_option (adjust_index (len l) 1) 0 from in
  let hi := from_option (adjust_index (len l) 1) (len l) to in
  getslice l (Slice from to None)
  = ret (take (Z.to_nat (hi - lo)) (drop (Z.to_nat lo) l)).
Proof.
  intros lo hi. unfold getslice, slice_indices. cbn [Py.step Py.start Py.stop default].
  rewrite (decide_False (P := 1 = 0)) by lia.
  rewrite (decide_False (P := 1 < 0)) by lia.
  rewrite bind_ret.
  pose proof (len_nonneg l) as Hlen.
  assert (0 ≤ lo ≤ len l).
  { subst lo. destruct from; simpl; [apply adjust_index_forward|]; lia. }
  assert (0 ≤ hi ≤ len l).
  { subst hi. destruct to; simpl; [apply adjust_index_forward|]; lia. }
  unfold ret. f_equal.
  replace (match from with Some i => adjust_index (len l) 1 i | None => 0 end) with lo
    by by destruct from.
  replace (match to with Some i => adjust_index (len l) 1 i | None => len l end) with hi
    by by destruct to.
  apply positions_take_drop; lia.
Qed.

Lemma getslice_no_step l a b :
  getslice l (Slice (Some a) (Some b) None) = ret (getslice2 l a b).
Proof. reflexivity. Qed.

Lemma getslice2_length l a b : (length (getslice2 l a b) ≤ length l)%nat.
Proof.
  rewrite getslice2_take_drop. rewrite length_take, length_drop. lia.
Qed.

Lemma getslice2_same l a : getslice2 l a a = [].
Proof. by rewrite getslice2_take_drop, Z.sub_diag. Qed.

(** In range, [l[a:b]] is the usual [take]/[drop]. *)
Lemma getslice2_in_range l a b :
  0 ≤ a → a ≤ b → b ≤ len l →
  getslice2 l a b = take (Z.to_nat (b - a)) (drop (Z.to_nat a) l).
Proof.
  intros. rewrite getslice2_take_drop. unfold adjust_index.
  repeat case_decide; try lia; f_equal; try lia.
  all: replace a with (len l) by lia; replace b with (len l) by lia;
    unfold len; rewrite ?Z.sub_diag; done.
Qed.

(** A start at or past the end reads as empty. *)
Lemma getslice2_start_past_end l a b : len l ≤ a → getslice2 l a b = [].
Proof.
  intros. rewrite getslice2_take_drop.
  pose proof (adjust_index_forward (len l) 1 b (len_nonneg l) ltac:(lia)).
  pose proof (len_nonneg l).
  replace (adjust_index (len l) 1 a) with (len l)
    by (unfold adjust_index; repeat case_decide; lia).
  replace (Z.to_nat (adjust_index (len l) 1 b - len l)) with 0%nat by lia.
  done.
Qed.

(** A stop past the end reads up to the end. *)
Lemma getslice2_stop_past_end l a b :
  0 ≤ a → len l ≤ b → getslice2 l a b = drop (Z.to_nat a) l.
Proof.
  intros. rewrite getslice2_take_drop.
  pose proof (len_nonneg l).
  replace (adjust_index (len l) 1 b) with (len l)
    by (unfold adjust_index; repeat case_decide; lia).
  destruct (decide (len l ≤ a)).
  - replace (adjust_index (len l) 1 a) with (len l)
      by (unfold adjust_index; repeat case_decide; lia).
    rewrite Z.sub_diag. unfold len in *.
    rewrite !drop_ge by lia. done.
  - replace (adjust_index (len l) 1 a) with a
      by (unfold adjust_index; repeat case_decide; lia).
    apply take_ge. rewrite length_drop. unfold len in *. lia.
Qed.

(** Indexing a non-empty sequence at [0] and at [-1]. *)
Lemma getitem_first x l : getitem (x :: l) 0 = ret x.
Proof. reflexivity. Qed.

Lemma getitem_last l x : last l = Some x → getitem l (-1) = ret x.
Proof.
  intros Hlast. unfold getitem, len.
  assert (0 < length l)%nat by (destruct l; simpl; [done|lia]).
  rewrite (decide_True (P := -1 < 0)) by lia.
  rewrite decide_True by lia.
  replace (Z.to_nat (-1 + Z.of_nat (length l))) with (pred (length l)) by lia.
  by rewrite <- last_lookup, Hlast.
Qed.

(** Slicing fails only on a zero step. *)
Lemma getslice_raises l (s : slice) e :
  getslice l s = raise e →
  Py.step s = Some 0 ∧ e = ValueError "slice step cannot be zero".
Proof.
  unfold getslice, slice_indices. case_decide as Hst; [|done].
  intros [= <-]. split; [|done].
  destruct (Py.step s); simpl in Hst; [by subst|lia].
Qed.

Lemma getslice_step_0 l from to :
  getslice l (Slice from to (Some 0)) = raise (ValueError "slice step cannot be zero").
Proof. reflexivity. Qed.

(** With a positive step the selection starts at the lowest selected
    position: every selected element lies at or after the first one. *)
Lemma getslice_forward_ends l (s : slice) first rest y :
  0 < default 1 (Py.step s) →
  getslice l s = ret (first :: rest) →
  y ∈ first :: rest →
  ∃ i j : nat, (i ≤ j)%nat ∧ l !! i = Some first ∧ l !! j = Some y.
Proof.
  intros Hst. unfold getslice, slice_indices.
  rewrite decide_False by lia. rewrite (decide_False (P := _ < 0)) by lia.
  rewrite bind_ret.
  set (lo := match Py.start s with Some i => _ | None => _ end).
  set (hi := match Py.stop s with Some i => _ | None => _ end).
  set (st := default 1 (Py.step s)) in *.
  pose proof (len_nonneg l) as Hlen.
  assert (0 ≤ lo) as Hlo.
  { subst lo. destruct (Py.start s); [apply adjust_index_forward|]; lia. }
  assert (hi ≤ len l) as Hhi.
  { subst hi. destruct (Py.stop s); [apply adjust_index_forward; lia|].
    case_decide; lia. }
  intros [= Hsel] Hy.
  unfold slice_positions in Hsel.
  destruct (decide (0 < slice_length lo hi st)) as [Hk|Hk];
    [|by rewrite seqZ_nil in Hsel by lia].
  assert (lo < hi) as Hlt.
  { unfold slice_length in Hk. rewrite (decide_False (P := st < 0)) in Hk by lia.
    case_decide; lia. }
  rewrite seqZ_cons in Hsel by done.
  rewrite fmap_cons, Z.mul_0_l, Z.add_0_r in Hsel. cbn [omap list_omap] in Hsel.
  destruct (lookup_lt_is_Some_2 l (Z.to_nat lo)) as [x Hx];
    [unfold len in Hhi; lia|].
  rewrite Hx in Hsel. injection Hsel as -> Hrest.
  apply elem_of_cons in Hy as [->|Hy].
  { exists (Z.to_nat lo), (Z.to_nat lo). done. }
  rewrite <- Hrest in Hy.
  apply list_elem_of_omap in Hy as (q & Hq & Hlook).
  apply list_elem_of_fmap in Hq as (i & -> & Hi).
  apply elem_of_seqZ in Hi.
  exists (Z.to_nat lo), (Z.to_nat (lo + i * st)).
  split_and!; [nia|done|done].
Qed.

End SliceFacts.

(** ** Label classification: [span_label_to_enum] *)



(** Every attribute name in a table is the name of a member, which
    [getattr] returns. *)
Lemma NamedEntityType_getattr_table label attr :
  (label, attr) ∈ LABEL_TO_NAMED_ENTITY_TYPE_ATTR_items →
  ∃ m, NamedEntityType.name m = attr ∧ NamedEntityType.getattr attr = ret m.
Proof.
  unfold LABEL_TO_NAMED_ENTITY_TYPE_ATTR_items. intros Hin.
  repeat (apply elem_of_cons in Hin as [[= -> ->]|Hin];
          [eexists; split; [|reflexivity]; reflexivity|]).
  by apply elem_of_nil in Hin.
Qed.

Lemma RefPartType_getattr_table label attr :
  (label, attr) ∈ LABEL_TO_REF_PART_TYPE_ATTR_items →
  ∃ m, RefPartType.name m = attr ∧ RefPartType.getattr attr = ret m.
Proof.
  unfold LABEL_TO_REF_PART_TYPE_ATTR_items. intros Hin.
  repeat (apply elem_of_cons in Hin as [[= -> ->]|Hin];
          [eexists; split; [|reflexivity]; reflexivity|]).
  by apply elem_of_nil in Hin.
Qed.

(** C6: for both enumerations, [span_label_to_enum] maps every label that is
    a key of the mapping table to the member named by the table (so
    "Citation" and its Hebrew counterpart both give CITATION), and raises
    the lookup error [KeyError], carrying the label, for every string that
    is not a key; no member is substituted. *)
Theorem span_label_to_enum_lookup :
  (∀ span_label : string,
     match LABEL_TO_NAMED_ENTITY_TYPE_ATTR !! span_label with
     | Some attr =>
         ∃ m, NamedEntityType.name m = attr
              ∧ NamedEntityType.span_label_to_enum span_label = ret m
     | None =>
         NamedEntityType.span_label_to_enum span_label = raise (KeyError span_label)
     end)
  ∧ (∀ span_label : string,
     match LABEL_TO_REF_PART_TYPE_ATTR !! span_label with
     | Some attr =>
         ∃ m, RefPartType.name m = attr
              ∧ RefPartType.span_label_to_enum span_label = ret m
     | None =>
         RefPartType.span_label_to_enum span_label = raise (KeyError span_label)
     end)
  ∧ NamedEntityType.span_label_to_enum "Citation" = ret NamedEntityType.CITATION
  ∧ NamedEntityType.span_label_to_enum "מקור" = ret NamedEntityType.CITATION
  ∧ NamedEntityType.span_label_to_enum "unknown-xyz" = raise (KeyError "unknown-xyz")
  ∧ RefPartType.span_label_to_enum "unknown-xyz" = raise (KeyError "unknown-xyz").
Proof.
  split_and!; try by vm_compute.
  - intros span_label. unfold NamedEntityType.span_label_to_enum.
    destruct (LABEL_TO_NAMED_ENTITY_TYPE_ATTR !! span_label) as [attr|] eqn:Hget;
      [|done].
    apply elem_of_list_to_map_2 in Hget.
    by apply NamedEntityType_getattr_table in Hget.
  - intros span_label. unfold RefPartType.span_label_to_enum.
    destruct (LABEL_TO_REF_PART_TYPE_ATTR !! span_label) as [attr|] eqn:Hget;
      [|done].
    apply elem_of_list_to_map_2 in Hget.
    by apply RefPartType_getattr_table in Hget.
Qed.




(** ** Spans by character offset *)

(** Induction along the ownership chain. *)
Lemma Subspannable_chain_ind (P : Subspannable → Prop) :
  (∀ d, P (OfDoc d)) →
  (∀ owner a b l, P owner → P (OfSpan (MkNESpan owner a b l))) →
  ∀ x, P x.
Proof.
  intros Hdoc Hspan. fix IH 1.
  intros [d|[owner a b l]]; [apply Hdoc|apply Hspan, IH].
Qed.

Lemma subspan_half_open self a b span_label :
  subspan self (half_open a b) span_label = ret (MkNESpan self a b span_label).
Proof.
  unfold subspan, half_open, NESpan_init.
  cbn [Py.start Py.stop]. by rewrite !or_0_Some.
Qed.

Lemma subspan_slice self item span_label :
  subspan self (PySlice item) span_label
  = ret (MkNESpan self (or_0 (Py.start item))
           (default (len (text self)) (Py.stop item)) span_label).
Proof.
  unfold subspan, NESpan_init. rewrite or_0_Some. by destruct (Py.stop item).
Qed.

Lemma walk_to_doc_offset parent_span start end_ :
  walk_to_doc parent_span start end_
  = (start + offset_in_doc parent_span, end_ + offset_in_doc parent_span).
Proof.
  revert start end_.
  induction parent_span as [d|owner a b l IH] using Subspannable_chain_ind;
    intros start end_; simpl.
  - f_equal; lia.
  - rewrite IH. f_equal; lia.
Qed.

(** The loop runs once per span above and stops on the root document. *)
Lemma walk_loop_stops_at_doc parent_span start end_ :
  walk_loop (depth parent_span) parent_span start end_
  = Some (OfDoc (root_doc parent_span), walk_to_doc parent_span start end_)
  ∧ ∀ fuel, (fuel < depth parent_span)%nat →
      walk_loop fuel parent_span start end_ = None.
Proof.
  revert start end_.
  induction parent_span as [d|owner a b l IH] using Subspannable_chain_ind;
    intros start end_; simpl.
  - split; [done|]. intros fuel Hfuel. lia.
  - destruct (IH (start + a) (end_ + a)) as [Hrun Hshort].
    split; [done|]. intros [|fuel] Hfuel; [done|]. apply Hshort. lia.
Qed.

Lemma get_range_relative_to_doc_offset owner a b l :
  get_range_relative_to_doc (MkNESpan owner a b l)
  = (offset_in_doc owner + a, offset_in_doc owner + b).
Proof.
  unfold get_range_relative_to_doc; simpl.
  rewrite walk_to_doc_offset. f_equal; lia.
Qed.

Lemma nest_succeeds owner ranges :
  ∃ x, nest owner ranges = ret x
       ∧ offset_in_doc x = offset_in_doc owner + foldr Z.add 0 (ranges.*1)
       ∧ depth x = (depth owner + length ranges)%nat
       ∧ root_doc x = root_doc owner.
Proof.
  revert owner. induction ranges as [|[a b] ranges IH]; intros owner;
    cbn [nest].
  - exists owner. simpl. split_and!; [done|lia|lia|done].
  - rewrite subspan_half_open, bind_ret.
    destruct (IH (OfSpan (MkNESpan owner a b None))) as (x & -> & Hoff & Hd & Hr).
    exists x. rewrite Hoff, Hd, Hr, fmap_cons.
    cbn [foldr offset_in_doc depth root_doc length fst].
    split_and!; [done|lia|lia|done].
Qed.

(** C1: for a document [D] and integers [a b c d], the span
    [D.subspan([a,b)).subspan([c,d))] has range [(a+c, a+d)] relative to
    the document. A span built directly over a document returns its own
    range unchanged: the walk stops at the document. Three levels give
    [(a1+a2+a3, a1+a2+b3)], and a span at the bottom of a chain of any
    depth returns its range shifted by the sum of the starts above it. The
    loop body runs once for each span above and the loop exits on the root
    document. *)
Theorem get_range_relative_to_doc_nested :
  (∀ (D : NEDoc) (a b c d : Z) (l1 l2 : option pystr),
     bind (subspan D (half_open a b) l1) (fun S1 =>
     bind (subspan S1 (half_open c d) l2) (fun S2 =>
     ret (get_range_relative_to_doc S2))) = ret (a + c, a + d))
  ∧ (∀ (D : NEDoc) (a b : Z) (l : option pystr),
     bind (subspan D (half_open a b) l) (fun S1 =>
     ret (get_range_relative_to_doc S1)) = ret (a, b))
  ∧ (∀ (D : NEDoc) (a1 b1 a2 b2 a3 b3 : Z) (l1 l2 l3 : option pystr),
     bind (subspan D (half_open a1 b1) l1) (fun S1 =>
     bind (subspan S1 (half_open a2 b2) l2) (fun S2 =>
     bind (subspan S2 (half_open a3 b3) l3) (fun S3 =>
     ret (get_range_relative_to_doc S3)))) = ret (a1 + a2 + a3, a1 + a2 + b3))
  ∧ (∀ (D : NEDoc) (ranges : list (Z * Z)) (c d : Z) (l : option pystr),
     ∃ owner, nest D ranges = ret owner
       ∧ depth owner = length ranges
       ∧ root_doc owner = D
       ∧ bind (subspan owner (half_open c d) l) (fun S =>
         ret (get_range_relative_to_doc S))
         = ret (foldr Z.add 0 (ranges.*1) + c, foldr Z.add 0 (ranges.*1) + d))
  ∧ (∀ S : NESpan,
     walk_loop (depth (Span.doc S)) (Span.doc S) (Span.range S).1 (Span.range S).2
     = Some (OfDoc (root_doc S), get_range_relative_to_doc S)
     ∧ ∀ fuel, (fuel < depth (Span.doc S))%nat →
         walk_loop fuel (Span.doc S) (Span.range S).1 (Span.range S).2 = None).
Proof.
  split_and!.
  - intros. rewrite subspan_half_open, bind_ret.
    rewrite subspan_half_open, bind_ret.
    rewrite get_range_relative_to_doc_offset; simpl. done.
  - intros. rewrite subspan_half_open, bind_ret.
    rewrite get_range_relative_to_doc_offset; simpl. done.
  - intros. do 3 rewrite subspan_half_open, bind_ret.
    rewrite get_range_relative_to_doc_offset; simpl. done.
  - intros. destruct (nest_succeeds D ranges) as (x & Hx & Hoff & Hd & Hr).
    exists x. split_and!; [done|done|done|].
    rewrite subspan_half_open, bind_ret.
    rewrite get_range_relative_to_doc_offset, Hoff; simpl. done.
  - intros [owner a b l]. apply walk_loop_stops_at_doc.
Qed.

Lemma text_span owner a b l :
  text (OfSpan (MkNESpan owner a b l)) = getslice2 (text owner) a b.
Proof. reflexivity. Qed.

(** C5: [subspan] validates no bounds. For every owner and every pair of
    integer offsets, whatever the slice's step, it returns the span that
    stores the offsets as given; reading the span's text slices the owner's
    text by them. The text read is a contiguous piece of the owner's text,
    never longer than it: empty when the start is at or past the end,
    cut at the end when the stop is past it. *)
Theorem subspan_no_bounds_validation
    (owner : Subspannable) (a b : Z) (step : option Z) (span_label : option pystr) :
  subspan owner (PySlice (Slice (Some a) (Some b) step)) span_label
    = ret (MkNESpan owner a b span_label)
  ∧ text (MkNESpan owner a b span_label) = getslice2 (text owner) a b
  ∧ getslice (text owner) (Slice (Some a) (Some b) None)
    = ret (text (MkNESpan owner a b span_label))
  ∧ (let lo := adjust_index (len (text owner)) 1 a in
     let hi := adjust_index (len (text owner)) 1 b in
     0 ≤ lo ≤ len (text owner) ∧ 0 ≤ hi ≤ len (text owner)
     ∧ text (MkNESpan owner a b span_label)
       = take (Z.to_nat (hi - lo)) (drop (Z.to_nat lo) (text owner)))
  ∧ (length (text (MkNESpan owner a b span_label)) ≤ length (text owner))%nat
  ∧ (len (text owner) ≤ a → text (MkNESpan owner a b span_label) = [])
  ∧ (0 ≤ a → len (text owner) ≤ b →
     text (MkNESpan owner a b span_label) = drop (Z.to_nat a) (text owner)).
Proof.
  rewrite text_span. split_and!.
  - rewrite subspan_slice. cbn [Py.start Py.stop default]. by rewrite or_0_Some.
  - done.
  - apply getslice_no_step.
  - intros lo hi.
    pose proof (len_nonneg (text owner)) as Hlen.
    pose proof (adjust_index_forward _ 1 a Hlen ltac:(lia)).
    pose proof (adjust_index_forward _ 1 b Hlen ltac:(lia)).
    split; [done|]. split; [done|]. apply getslice2_take_drop.
  - apply getslice2_length.
  - apply getslice2_start_past_end.
  - apply getslice2_stop_past_end.
Qed.

(** [subspan] rejects with [TypeError] every argument that is not a slice
    object. *)
Theorem subspan_rejects_non_slice
    (self : Subspannable) (item : pyobj) (span_label : option pystr) :
  isinstance_slice item = false →
  subspan self item span_label = raise (TypeError "Item must be a slice").
Proof. by destruct item. Qed.

Lemma subspan_rejects_non_slice_witness :
  isinstance_slice (PyTuple [PyInt 0; PyInt 2]) = false
  ∧ subspan (OfDoc {| NEDoc_text := str "abc" |}) (PyTuple [PyInt 0; PyInt 2]) None
    = raise (TypeError "Item must be a slice").
Proof.
  split; [reflexivity|].
  apply (subspan_rejects_non_slice
           (OfDoc {| NEDoc_text := str "abc" |}) (PyTuple [PyInt 0; PyInt 2]) None).
  reflexivity.
Defined.

(** Conversely every slice object is accepted, whatever its components. *)
Lemma subspan_accepts_slice self item span_label :
  isinstance_slice item = true →
  ∃ s, subspan self item span_label = ret s ∧ Span.doc s = self.
Proof.
  destruct item as [| | | | |item|]; try done. intros _.
  rewrite subspan_slice. by eexists.
Qed.




(** ** Serialisation *)

Lemma serialize_with_text self :
  serialize self true
  = <["text" := PyStr (text self)]> (serialize self false).
Proof. reflexivity. Qed.

(** C7: the serialised structure holds the span's range relative to its
    immediate owner and its label; it has a text field exactly when asked
    for one; and slicing the immediate owner's text by the serialised range
    gives back the serialised text. *)
Theorem serialize_round_trip (self : NESpan) (with_text : bool) :
  serialize self with_text !! "range"
    = Some (PyTuple [PyInt (Span.range self).1; PyInt (Span.range self).2])
  ∧ serialize self with_text !! "label" = Some (py_label (Span.label self))
  ∧ (is_Some (serialize self with_text !! "text") ↔ with_text = true)
  ∧ dom (serialize self with_text)
    = (if with_text then {["range"; "label"; "text"]} else {["range"; "label"]} : gset string)
  ∧ serialize self true !! "text" = Some (PyStr (text self))
  ∧ text_of_serialized (Span.doc self) (serialize self true)
    = serialize self true !! "text".
Proof.
  destruct self as [owner a b l].
  split_and!.
  - destruct with_text; unfold serialize; by simplify_map_eq.
  - destruct with_text; unfold serialize; by simplify_map_eq.
  - destruct with_text; unfold serialize; simplify_map_eq.
    + split; [done|by eexists].
    + split; [by intros [? ?]|done].
  - destruct with_text; unfold serialize;
      rewrite ?dom_insert_L, dom_empty_L; set_solver.
  - unfold serialize. by simplify_map_eq.
  - unfold text_of_serialized, serialize. by simplify_map_eq.
Qed.

(** ** Ordered word spans *)

Lemma StronglySorted_lookup_lt {A} (R : relation A) (l : list A) (i j : nat) x y :
  StronglySorted R l → (i < j)%nat → l !! i = Some x → l !! j = Some y → R x y.
Proof.
  intros Hsorted. revert i j.
  induction Hsorted as [|a l Hsorted IH Hall]; intros i j Hij Hi Hj; [done|].
  destruct j as [|j]; [lia|]. destruct i as [|i]; simpl in *.
  - injection Hi as ->. by eapply Forall_lookup_1.
  - eapply IH; [|done..]. lia.
Qed.

Lemma StronglySorted_filter {A} (R : relation A) (P : A → Prop)
    `{∀ x, Decision (P x)} (l : list A) :
  StronglySorted R l → StronglySorted R (filter P l).
Proof.
  induction 1 as [|a l Hsorted IH Hall]; [constructor|].
  rewrite filter_cons. case_decide; [|done].
  constructor; [done|].
  apply Forall_forall. intros x [_ Hx]%list_elem_of_filter.
  by apply (proj1 (Forall_forall _ _) Hall).
Qed.

Section WordSpans.
Variable TOKENIZER : pystr → list Token.

Lemma word_spans_in_text self :
  tokens_in_text (TOKENIZER (text self)) (text self) →
  Forall (fun p => 0 ≤ p.1 ∧ p.1 ≤ p.2 ∧ p.2 ≤ len (text self))
    (word_spans TOKENIZER self)
  ∧ StronglySorted (fun p q => p.2 ≤ q.1) (word_spans TOKENIZER self).
Proof.
  intros [Hall Hsorted]. unfold word_spans. split.
  - apply Forall_fmap, Forall_forall.
    intros token [_ Hin]%list_elem_of_filter.
    apply (proj1 (Forall_forall _ _) Hall) in Hin.
    unfold token_end in Hin. simpl. lia.
  - eapply StronglySorted_fmap; [|by apply StronglySorted_filter].
    intros t1 t2 Hle. exact Hle.
Qed.

(** The three outcomes of [subspan_by_word_indices], by what the word
    slice selects. *)
Lemma subspan_by_word_indices_error self word_slice e :
  getslice (word_spans TOKENIZER self) word_slice = raise e →
  subspan_by_word_indices TOKENIZER self word_slice = raise e.
Proof. unfold subspan_by_word_indices. by intros ->. Qed.

Lemma subspan_by_word_indices_empty self word_slice :
  getslice (word_spans TOKENIZER self) word_slice = ret [] →
  subspan_by_word_indices TOKENIZER self word_slice
  = match Py.start word_slice with
    | Some s =>
        if decide (s > word_length TOKENIZER self)
        then raise (IndexError
                      (out_of_range_message word_slice (word_length TOKENIZER self)))
        else ret (MkNESpan self 0 0 None)
    | None => ret (MkNESpan self 0 0 None)
    end.
Proof.
  unfold subspan_by_word_indices, word_length. intros ->. rewrite bind_ret.
  destruct (Py.start word_slice) as [s|]; [case_decide|]; try done.
Qed.

Lemma subspan_by_word_indices_nonempty self word_slice first rest last_ :
  getslice (word_spans TOKENIZER self) word_slice = ret (first :: rest) →
  last (first :: rest) = Some last_ →
  subspan_by_word_indices TOKENIZER self word_slice
  = ret (MkNESpan self first.1 last_.2 None).
Proof.
  unfold subspan_by_word_indices. intros -> Hlast. rewrite bind_ret.
  rewrite getitem_first, bind_ret.
  rewrite (getitem_last _ _ Hlast), !bind_ret.
  apply subspan_half_open.
Qed.

Lemma subspan_by_word_indices_returns self word_slice s :
  subspan_by_word_indices TOKENIZER self word_slice = ret s →
  ∃ a b, s = MkNESpan self a b None.
Proof.
  destruct (getslice (word_spans TOKENIZER self) word_slice) as [e|[|first rest]]
    eqn:Hsel.
  - by rewrite (subspan_by_word_indices_error _ _ _ Hsel).
  - rewrite (subspan_by_word_indices_empty _ _ Hsel).
    destruct (Py.start word_slice); [case_decide|]; intros [= <-]; by eexists _, _.
  - destruct (proj2 (last_is_Some (first :: rest))) as [last_ Hlast]; [done|].
    rewrite (subspan_by_word_indices_nonempty _ _ _ _ _ Hsel Hlast).
    intros [= <-]. by eexists _, _.
Qed.

(** C3: when the word slice selects no word, [subspan_by_word_indices]
    raises the out-of-range error exactly when the slice's start is given
    and greater than the word count; its message then names the slice and
    the word count. In every other empty case it returns the zero-length
    span with range [(0, 0)]. *)
Theorem subspan_by_word_indices_empty_selection self word_slice :
  getslice (word_spans TOKENIZER self) word_slice = ret [] →
  ((∃ msg, subspan_by_word_indices TOKENIZER self word_slice = raise (IndexError msg))
   ↔ (∃ s, Py.start word_slice = Some s ∧ s > word_length TOKENIZER self))
  ∧ ((∃ s, Py.start word_slice = Some s ∧ s > word_length TOKENIZER self) →
     subspan_by_word_indices TOKENIZER self word_slice
     = raise (IndexError
                ("Word indices out of range: " +:+ repr_slice word_slice
                 +:+ ". Document has " +:+ pretty (word_length TOKENIZER self)
                 +:+ " words.")))
  ∧ (¬ (∃ s, Py.start word_slice = Some s ∧ s > word_length TOKENIZER self) →
     subspan_by_word_indices TOKENIZER self word_slice = ret (MkNESpan self 0 0 None)
     ∧ Span.range (MkNESpan self 0 0 None) = (0, 0)
     ∧ text (MkNESpan self 0 0 None) = []).
Proof.
  intros Hsel. rewrite (subspan_by_word_indices_empty _ _ Hsel).
  destruct (Py.start word_slice) as [s|] eqn:Hstart; [case_decide as Hgt|].
  - split_and!.
    + split; [by exists s|by eexists].
    + done.
    + intros []. by exists s.
  - split_and!.
    + split; [by intros [? ?]|]. intros (s' & [= <-] & ?). lia.
    + intros (s' & [= <-] & ?). lia.
    + intros _. split_and!; [done|done|].
      apply getslice2_same.
  - split_and!.
    + split; [by intros [? ?]|]. by intros (s' & ? & ?).
    + by intros (s' & ? & ?).
    + intros _. split_and!; [done|done|].
      apply getslice2_same.
Qed.

(** C9: the span returned by [subspan] or by [subspan_by_word_indices] has
    the receiver as its immediate owner, whatever the receiver's depth in
    a chain, and its text is the receiver's text sliced by its range. *)
Theorem returned_span_is_owned_by_receiver self :
  (∀ item span_label s,
     subspan self item span_label = ret s →
     Span.doc s = self
     ∧ depth s = S (depth self)
     ∧ text s = getslice2 (text self) (Span.range s).1 (Span.range s).2)
  ∧ (∀ word_slice s,
     subspan_by_word_indices TOKENIZER self word_slice = ret s →
     Span.doc s = self
     ∧ depth s = S (depth self)
     ∧ text s = getslice2 (text self) (Span.range s).1 (Span.range s).2).
Proof.
  split.
  - intros item span_label s Hs.
    destruct item; try done. rewrite subspan_slice in Hs. by injection Hs as <-.
  - intros word_slice s Hs.
    by apply subspan_by_word_indices_returns in Hs as (a & b & ->).
Qed.

(** With a positive step (or none) and tokens in text order, a selected
    first word starts no later than any selected word ends. *)
Lemma selected_words_in_order self word_slice first rest last_ :
  tokens_in_text (TOKENIZER (text self)) (text self) →
  0 < default 1 (Py.step word_slice) →
  getslice (word_spans TOKENIZER self) word_slice = ret (first :: rest) →
  last (first :: rest) = Some last_ →
  0 ≤ first.1 ∧ first.1 ≤ last_.2 ∧ last_.2 ≤ len (text self).
Proof.
  intros [Hall Hsorted]%word_spans_in_text Hstep Hsel Hlast.
  destruct (getslice_forward_ends _ _ _ _ last_ Hstep Hsel)
    as (i & j & Hij & Hi & Hj); [by apply last_Some_elem_of|].
  pose proof (Forall_lookup_1 _ _ _ _ Hall Hi) as Hfirst.
  pose proof (Forall_lookup_1 _ _ _ _ Hall Hj) as Hlast_.
  simpl in Hfirst, Hlast_.
  destruct (decide (i = j)) as [->|Hne].
  - rewrite Hi in Hj. injection Hj as <-. lia.
  - pose proof (StronglySorted_lookup_lt _ _ i j _ _ Hsorted ltac:(lia) Hi Hj)
      as Hbefore.
    simpl in Hbefore. lia.
Qed.

(** C4, as the code has it: [subspan_by_word_indices] with a word slice
    of absent or positive step, over tokens that lie in the text in text
    order, returns a span of the receiver that satisfies
    [0 <= start <= end <= len(owner.text)]. [subspan] validates nothing: it
    stores [item.start or 0] as the start and [item.stop] as the end, the
    end replaced by [len(owner.text)] only when it is [None] (a stop of [0]
    is kept), so its span satisfies the invariant exactly when these two
    stored offsets do. *)
Theorem span_invariant_by_construction self :
  tokens_in_text (TOKENIZER (text self)) (text self) →
  (∀ word_slice s,
     0 < default 1 (Py.step word_slice) →
     subspan_by_word_indices TOKENIZER self word_slice = ret s →
     Span.doc s = self ∧ span_invariant s)
  ∧ (∀ item span_label s,
     subspan self (PySlice item) span_label = ret s →
     Span.doc s = self
     ∧ (span_invariant s
        ↔ 0 ≤ or_0 (Py.start item)
          ∧ or_0 (Py.start item) ≤ default (len (text self)) (Py.stop item)
          ∧ default (len (text self)) (Py.stop item) ≤ len (text self))).
Proof.
  intros Htokens. split.
  - intros word_slice s Hstep.
    destruct (getslice (word_spans TOKENIZER self) word_slice) as [e|[|first rest]]
      eqn:Hsel.
    + by rewrite (subspan_by_word_indices_error _ _ _ Hsel).
    + rewrite (subspan_by_word_indices_empty _ _ Hsel).
      pose proof (len_nonneg (text self)).
      destruct (Py.start word_slice); [case_decide|]; intros [= <-];
        (split; [done|]); unfold span_invariant; simpl; lia.
    + destruct (proj2 (last_is_Some (first :: rest))) as [last_ Hlast]; [done|].
      rewrite (subspan_by_word_indices_nonempty _ _ _ _ _ Hsel Hlast).
      intros [= <-]. split; [done|].
      unfold span_invariant. cbn [Span.range Span.doc fst snd].
      by eapply selected_words_in_order.
  - intros item span_label s. rewrite subspan_slice. intros [= <-].
    split; [done|]. unfold span_invariant. simpl. done.
Qed.

(** Word slices without a step. *)
Lemma word_slice_from_count self to :
  getslice (word_spans TOKENIZER self)
    (Slice (Some (word_length TOKENIZER self)) to None) = ret [].
Proof.
  rewrite getslice_step_None. unfold word_length. cbn [from_option].
  set (l := word_spans TOKENIZER self).
  pose proof (len_nonneg l) as Hlen.
  replace (adjust_index (len l) 1 (len l)) with (len l)
    by (unfold adjust_index; repeat case_decide; lia).
  assert (from_option (adjust_index (len l) 1) (len l) to ≤ len l).
  { destruct to; simpl; [apply adjust_index_forward|]; lia. }
  replace (Z.to_nat _) with 0%nat by lia. done.
Qed.

Lemma word_slice_last self last_ :
  last (word_spans TOKENIZER self) = Some last_ →
  getslice (word_spans TOKENIZER self) (Slice (Some (-1)) None None) = ret [last_].
Proof.
  intros [l' Hl]%last_Some. rewrite getslice_step_None, Hl.
  cbn [from_option]. unfold ret. f_equal.
  unfold len. rewrite length_app. simpl.
  replace (adjust_index _ 1 (-1)) with (Z.of_nat (length l'))
    by (unfold adjust_index; repeat case_decide; lia).
  replace (Z.to_nat (_ - _)) with 1%nat by lia.
  rewrite Nat2Z.id, drop_app_length. done.
Qed.

Lemma word_slice_from_before_first self k :
  k > word_length TOKENIZER self →
  getslice (word_spans TOKENIZER self) (Slice (Some (- k)) None None)
  = ret (word_spans TOKENIZER self).
Proof.
  unfold word_length. intros Hk. rewrite getslice_step_None.
  cbn [from_option]. unfold ret. f_equal.
  set (l := word_spans TOKENIZER self) in *.
  pose proof (len_nonneg l) as Hlen.
  replace (adjust_index (len l) 1 (- k)) with 0
    by (unfold adjust_index; repeat case_decide; lia).
  rewrite Z.sub_0_r. unfold len. rewrite Nat2Z.id. simpl.
  apply take_ge. lia.
Qed.

Lemma getslice_from_len_forward {A} (l : list A) (to step : option Z) :
  0 < default 1 step →
  getslice l (Slice (Some (len l)) to step) = ret [].
Proof.
  intros Hst. unfold getslice, slice_indices. cbn [Py.start Py.stop Py.step].
  rewrite decide_False by lia. rewrite bind_ret. unfold ret. f_equal.
  pose proof (len_nonneg l) as Hlen.
  set (hi := match to with Some i => _ | None => _ end).
  assert (hi ≤ len l) as Hhi.
  { subst hi. destruct to; [apply adjust_index_forward; lia|]. case_decide; lia. }
  replace (adjust_index (len l) (default 1 step) (len l)) with (len l)
    by (unfold adjust_index; repeat case_decide; lia).
  unfold slice_positions, slice_length.
  rewrite (decide_False (P := default 1 step < 0)) by lia.
  rewrite (decide_False (P := len l < hi)) by lia. done.
Qed.

(** C10, as the code has it: the out-of-range error is raised only for a
    start strictly greater than the word count, whatever the slice. With a
    step that is absent or positive, a start equal to the word count gives
    the zero-length span. A negative start never raises the out-of-range
    error, and with a step other than zero it always gives a span: the word
    list is sliced as Python slices lists, so [slice(-1, None)] gives the
    last word and [slice(-k, None)] with [k] greater than the word count
    gives the span from the start of the first word to the end of the
    last. *)
Theorem out_of_range_check_is_strict self :
  (∀ word_slice msg,
     subspan_by_word_indices TOKENIZER self word_slice = raise (IndexError msg) →
     ∃ s, Py.start word_slice = Some s ∧ s > word_length TOKENIZER self)
  ∧ (∀ to step,
     0 < default 1 step →
     subspan_by_word_indices TOKENIZER self
       (Slice (Some (word_length TOKENIZER self)) to step)
     = ret (MkNESpan self 0 0 None))
  ∧ (∀ s to step msg,
     s < 0 →
     subspan_by_word_indices TOKENIZER self (Slice (Some s) to step)
     ≠ raise (IndexError msg))
  ∧ (∀ s to step,
     s < 0 →
     default 1 step ≠ 0 →
     ∃ span, subspan_by_word_indices TOKENIZER self (Slice (Some s) to step)
             = ret span)
  ∧ (∀ last_,
     last (word_spans TOKENIZER self) = Some last_ →
     subspan_by_word_indices TOKENIZER self (Slice (Some (-1)) None None)
     = ret (MkNESpan self last_.1 last_.2 None))
  ∧ (∀ k first last_,
     k > word_length TOKENIZER self →
     head (word_spans TOKENIZER self) = Some first →
     last (word_spans TOKENIZER self) = Some last_ →
     subspan_by_word_indices TOKENIZER self (Slice (Some (- k)) None None)
     = ret (MkNESpan self first.1 last_.2 None)).
Proof.
  assert (∀ word_slice msg,
     subspan_by_word_indices TOKENIZER self word_slice = raise (IndexError msg) →
     ∃ s, Py.start word_slice = Some s ∧ s > word_length TOKENIZER self) as Honly.
  { intros word_slice msg.
    destruct (getslice (word_spans TOKENIZER self) word_slice) as [e|[|first rest]]
      eqn:Hsel.
    - rewrite (subspan_by_word_indices_error _ _ _ Hsel).
      by apply getslice_raises in Hsel as [_ ->].
    - rewrite (subspan_by_word_indices_empty _ _ Hsel).
      destruct (Py.start word_slice) as [s|]; [case_decide|]; try done.
      intros _. by exists s.
    - destruct (proj2 (last_is_Some (first :: rest))) as [last_ Hlast]; [done|].
      by rewrite (subspan_by_word_indices_nonempty _ _ _ _ _ Hsel Hlast). }
  pose proof (len_nonneg (word_spans TOKENIZER self)) as Hcount.
  fold (word_length TOKENIZER self) in Hcount.
  split_and!.
  - exact Honly.
  - intros to step Hstep.
    pose proof (getslice_from_len_forward (word_spans TOKENIZER self) to step Hstep)
      as Hsel.
    change (len (word_spans TOKENIZER self)) with (word_length TOKENIZER self) in Hsel.
    rewrite (subspan_by_word_indices_empty _ _ Hsel).
    cbn [Py.start]. by rewrite decide_False by lia.
  - intros s to step msg Hneg Hraise.
    apply Honly in Hraise as (s' & [= <-] & Hgt). lia.
  - intros s to step Hneg Hstep.
    destruct (getslice (word_spans TOKENIZER self) (Slice (Some s) to step))
      as [e|[|first rest]] eqn:Hsel.
    + apply getslice_raises in Hsel as [Hzero _]. cbn [Py.step] in Hzero.
      rewrite Hzero in Hstep. done.
    + rewrite (subspan_by_word_indices_empty _ _ Hsel). cbn [Py.start].
      rewrite decide_False by lia. by eexists.
    + destruct (proj2 (last_is_Some (first :: rest))) as [last_ Hlast]; [done|].
      rewrite (subspan_by_word_indices_nonempty _ _ _ _ _ Hsel Hlast).
      by eexists.
  - intros last_ Hlast.
    by rewrite (subspan_by_word_indices_nonempty _ _ _ _ last_
                  (word_slice_last self last_ Hlast)).
  - intros k first last_ Hk Hhead Hlast.
    pose proof (word_slice_from_before_first self k Hk) as Hsel.
    apply head_Some in Hhead as [rest Hspans].
    rewrite Hspans in Hsel at 2. rewrite Hspans in Hlast.
    by rewrite (subspan_by_word_indices_nonempty _ _ _ _ _ Hsel Hlast).
Qed.

End WordSpans.

(** ** Hashing *)

Lemma hashed_tuple_eq (s1 s2 : NESpan) :
  hashed_tuple s1 = hashed_tuple s2
  ↔ text (Span.doc s1) = text (Span.doc s2)
    ∧ Span.range s1 = Span.range s2
    ∧ Span.label s1 = Span.label s2.
Proof.
  destruct s1 as [o1 a1 b1 l1], s2 as [o2 a2 b2 l2].
  unfold hashed_tuple. simpl. split.
  - by intros [= -> -> -> ->].
  - by intros (-> & [= -> ->] & ->).
Qed.

Lemma encode_hash_inj (x y : hash_key) : encode_hash x = encode_hash y → x = y.
Proof. unfold encode_hash. intros [= H]. by apply (inj encode). Qed.

(** C2, as the code has it: [__hash__] hashes the tuple of the immediate
    owner's text, start, end and label. Two spans hash the same tuple, and
    then have the same hash, exactly when they agree on the text of their
    immediate owner (not of the root document), on [(start, end)] and on
    the label. Changing the label alone changes the tuple hashed. Where
    the hash function has no collisions, equal hashes are exactly equal
    tuples. *)
Theorem hash_is_of_owner_text_range_and_label (hash : hash_key → Z) :
  (∀ s1 s2 : NESpan,
     hashed_tuple s1 = hashed_tuple s2
     ↔ text (Span.doc s1) = text (Span.doc s2)
       ∧ Span.range s1 = Span.range s2
       ∧ Span.label s1 = Span.label s2)
  ∧ (∀ s1 s2 : NESpan,
     text (Span.doc s1) = text (Span.doc s2)
     ∧ Span.range s1 = Span.range s2
     ∧ Span.label s1 = Span.label s2 →
     NESpan_hash hash s1 = NESpan_hash hash s2)
  ∧ (∀ (D : NEDoc) (item : pyobj) (span_label : option pystr) (s1 s2 : NESpan),
     subspan D item span_label = ret s1 →
     subspan D item span_label = ret s2 →
     NESpan_hash hash s1 = NESpan_hash hash s2)
  ∧ (∀ (owner : Subspannable) (a b : Z) (l1 l2 : option pystr),
     l1 ≠ l2 →
     hashed_tuple (MkNESpan owner a b l1) ≠ hashed_tuple (MkNESpan owner a b l2))
  ∧ ((∀ x y, hash x = hash y → x = y) →
     ∀ s1 s2 : NESpan,
       NESpan_hash hash s1 = NESpan_hash hash s2
       ↔ text (Span.doc s1) = text (Span.doc s2)
         ∧ Span.range s1 = Span.range s2
         ∧ Span.label s1 = Span.label s2).
Proof.
  split_and!.
  - apply hashed_tuple_eq.
  - intros s1 s2 Hsame%hashed_tuple_eq. unfold NESpan_hash. by rewrite Hsame.
  - intros D item span_label s1 s2 H1 H2. unfold ret in *. congruence.
  - intros owner a b l1 l2 Hne [_ [_ Hl]]%hashed_tuple_eq. done.
  - intros Hinj s1 s2. rewrite <- hashed_tuple_eq. unfold NESpan_hash.
    split; [apply Hinj|by intros ->].
Qed.

Lemma hash_is_of_owner_text_range_and_label_witness :
  (∀ x y, encode_hash x = encode_hash y → x = y)
  ∧ NESpan_hash encode_hash ab_in_abcX = NESpan_hash encode_hash ab_in_abcY
  ∧ NESpan_hash encode_hash ab_in_abcX
    ≠ NESpan_hash encode_hash (MkNESpan abcX_doc 0 2 None).
Proof.
  pose proof (hash_is_of_owner_text_range_and_label encode_hash)
    as (_ & _ & _ & _ & Hiff).
  specialize (Hiff encode_hash_inj).
  split_and!.
  - exact encode_hash_inj.
  - apply Hiff. by vm_compute.
  - intros [Htext _]%Hiff. by vm_compute in Htext.
Defined.

(** C2 as stated fails: these two spans have the same hash under every hash
    function, since both hash the tuple [("abc", 0, 2, None)], yet their
    root documents have different texts. *)
Lemma hash_does_not_see_root_document :
  ¬ (∃ hash : hash_key → Z,
       ∀ s1 s2 : NESpan,
         NESpan_hash hash s1 = NESpan_hash hash s2
         ↔ NEDoc_text (root_doc s1) = NEDoc_text (root_doc s2)
           ∧ Span.range s1 = Span.range s2
           ∧ Span.label s1 = Span.label s2).
Proof.
  intros [hash Hclaim].
  destruct (Hclaim ab_in_abcX ab_in_abcY) as [Hroot _].
  destruct Hroot as [Htext _]; [reflexivity|].
  by vm_compute in Htext.
Qed.

(** ** The code run on concrete texts *)

Lemma hello_doc_tokens :
  tokens_in_text (whitespace_tokenizer (text hello_doc)) (text hello_doc).
Proof.
  split.
  - vm_compute. repeat (constructor; [split_and!; discriminate|]). constructor.
  - vm_compute.
    repeat (constructor; [|repeat (constructor; [discriminate|]); constructor]).
    constructor.
Defined.

Example word_length_ignores_repeated_spaces :
  word_length whitespace_tokenizer spaced_doc = 3.
Proof. reflexivity. Qed.

Example first_word :
  bind (subspan_by_word_indices whitespace_tokenizer hello_doc
          (Slice (Some 0) (Some 1) None)) (fun s => ret (text s))
  = ret (str "hello").
Proof. reflexivity. Qed.

Example second_and_third_word :
  bind (subspan_by_word_indices whitespace_tokenizer hello_doc
          (Slice (Some 1) (Some 3) None)) (fun s => ret (text s))
  = ret (str "world foo").
Proof. reflexivity. Qed.

Example empty_in_range_slice :
  subspan_by_word_indices whitespace_tokenizer hello_doc (Slice (Some 2) (Some 2) None)
  = ret (MkNESpan hello_doc 0 0 None).
Proof. reflexivity. Qed.

Example stop_before_start :
  subspan_by_word_indices whitespace_tokenizer hello_doc (Slice (Some 2) (Some 1) None)
  = ret (MkNESpan hello_doc 0 0 None).
Proof. reflexivity. Qed.

Example offsets_past_the_end :
  text (MkNESpan abc_doc 1 10 None) = str "bc"
  ∧ text (MkNESpan abc_doc 5 10 None) = []
  ∧ text (MkNESpan abc_doc 2 1 None) = [].
Proof. done. Qed.

Lemma subspan_by_word_indices_empty_selection_witness :
  getslice (word_spans whitespace_tokenizer hello_doc) (Slice (Some 5) None None)
  = ret []
  ∧ subspan_by_word_indices whitespace_tokenizer hello_doc (Slice (Some 5) None None)
    = raise (IndexError
               "Word indices out of range: slice(5, None, None). Document has 3 words.").
Proof.
  assert (getslice (word_spans whitespace_tokenizer hello_doc)
            (Slice (Some 5) None None) = ret []) as Hsel by reflexivity.
  split; [exact Hsel|].
  destruct (subspan_by_word_indices_empty_selection
              whitespace_tokenizer hello_doc (Slice (Some 5) None None) Hsel)
    as (_ & Hraise & _).
  rewrite Hraise; [reflexivity|].
  exists 5. split; reflexivity.
Defined.

Lemma returned_span_is_owned_by_receiver_witness :
  subspan_by_word_indices whitespace_tokenizer world_foo (Slice (Some 1) None None)
  = ret (MkNESpan world_foo 6 9 None)
  ∧ Span.doc (MkNESpan world_foo 6 9 None) = OfSpan world_foo
  ∧ depth (MkNESpan world_foo 6 9 None) = 2%nat
  ∧ text (MkNESpan world_foo 6 9 None) = str "foo".
Proof.
  assert (subspan_by_word_indices whitespace_tokenizer world_foo
            (Slice (Some 1) None None) = ret (MkNESpan world_foo 6 9 None)) as Hrun
    by reflexivity.
  destruct (returned_span_is_owned_by_receiver whitespace_tokenizer world_foo)
    as [_ Hwords].
  destruct (Hwords _ _ Hrun) as (Hdoc & Hdepth & Htext).
  split_and!; [exact Hrun|exact Hdoc|exact Hdepth|].
  rewrite Htext. reflexivity.
Defined.

Lemma span_invariant_by_construction_witness :
  tokens_in_text (whitespace_tokenizer (text hello_doc)) (text hello_doc)
  ∧ subspan_by_word_indices whitespace_tokenizer hello_doc (Slice (Some 1) (Some 3) None)
    = ret (MkNESpan hello_doc 6 15 None)
  ∧ span_invariant (MkNESpan hello_doc 6 15 None).
Proof.
  destruct (span_invariant_by_construction whitespace_tokenizer hello_doc
              hello_doc_tokens) as [Hwords _].
  assert (subspan_by_word_indices whitespace_tokenizer hello_doc
            (Slice (Some 1) (Some 3) None) = ret (MkNESpan hello_doc 6 15 None)) as Hrun
    by reflexivity.
  split_and!; [exact hello_doc_tokens|exact Hrun|].
  apply (Hwords (Slice (Some 1) (Some 3) None)); [simpl; lia|exact Hrun].
Defined.

(** C4 as stated fails. [subspan] accepts a start after the stop, and any
    offsets outside the owner's text; and [subspan_by_word_indices] with a
    negative step takes its start from the last selected word and its end
    from the first. *)
Lemma span_invariant_counterexample :
  (subspan abc_doc (half_open 5 2) None = ret (MkNESpan abc_doc 5 2 None)
   ∧ ¬ span_invariant (MkNESpan abc_doc 5 2 None))
  ∧ (subspan abc_doc (half_open (-1) 7) None = ret (MkNESpan abc_doc (-1) 7 None)
     ∧ ¬ span_invariant (MkNESpan abc_doc (-1) 7 None))
  ∧ (tokens_in_text (whitespace_tokenizer (text hello_doc)) (text hello_doc)
     ∧ subspan_by_word_indices whitespace_tokenizer hello_doc
         (Slice None None (Some (-1)))
       = ret (MkNESpan hello_doc 12 5 None)
     ∧ ¬ span_invariant (MkNESpan hello_doc 12 5 None)).
Proof.
  split_and!; try reflexivity.
  - unfold span_invariant; simpl. lia.
  - unfold span_invariant; simpl. lia.
  - exact hello_doc_tokens.
  - unfold span_invariant; simpl. lia.
Qed.

Lemma out_of_range_check_is_strict_witness :
  subspan_by_word_indices whitespace_tokenizer hello_doc (Slice (Some 3) None None)
  = ret (MkNESpan hello_doc 0 0 None)
  ∧ subspan_by_word_indices whitespace_tokenizer hello_doc (Slice (Some 3) None (Some 2))
    = ret (MkNESpan hello_doc 0 0 None)
  ∧ (∃ span, subspan_by_word_indices whitespace_tokenizer hello_doc
               (Slice (Some (-2)) None (Some (-1))) = ret span)
  ∧ subspan_by_word_indices whitespace_tokenizer hello_doc (Slice (Some (-1)) None None)
    = ret (MkNESpan hello_doc 12 15 None)
  ∧ subspan_by_word_indices whitespace_tokenizer hello_doc (Slice (Some (-7)) None None)
    = ret (MkNESpan hello_doc 0 15 None)
  ∧ subspan_by_word_indices whitespace_tokenizer hello_doc (Slice (Some 4) None None)
    = raise (IndexError
               "Word indices out of range: slice(4, None, None). Document has 3 words.").
Proof.
  destruct (out_of_range_check_is_strict whitespace_tokenizer hello_doc)
    as (Honly & Hcount & _ & Hneg & Hlast & Hall).
  split_and!.
  - exact (Hcount None None ltac:(simpl; lia)).
  - exact (Hcount None (Some 2) ltac:(simpl; lia)).
  - apply (Hneg (-2) None (Some (-1))); [lia|simpl; lia].
  - exact (Hlast (12, 15) eq_refl).
  - apply (Hall 7 (0, 5) (12, 15)); [reflexivity|reflexivity|reflexivity].
  - reflexivity.
Defined.

(** C10 as stated fails where the slice has a step. With a negative step a
    start equal to the word count selects from the last word backwards:
    the one word of a one-word text, and on three words a span that starts
    at the last word and ends at the first. With a zero step a negative
    start raises, though not the out-of-range error. *)
Lemma out_of_range_check_counterexample :
  (word_length whitespace_tokenizer one_word_doc = 1
   ∧ subspan_by_word_indices whitespace_tokenizer one_word_doc
       (Slice (Some 1) None (Some (-1)))
     = ret (MkNESpan one_word_doc 0 5 None)
   ∧ text (MkNESpan one_word_doc 0 5 None) = str "hello")
  ∧ (word_length whitespace_tokenizer hello_doc = 3
     ∧ subspan_by_word_indices whitespace_tokenizer hello_doc
         (Slice (Some 3) None (Some (-1)))
       = ret (MkNESpan hello_doc 12 5 None))
  ∧ subspan_by_word_indices whitespace_tokenizer hello_doc
      (Slice (Some (-1)) None (Some 0))
    = raise (ValueError "slice step cannot be zero").
Proof. split_and!; reflexivity. Qed.


(** ** Slices of slices *)

Section SliceOfSlice.
Context {A : Type}.
Implicit Types (l : list A).

Lemma getslice2_full l : getslice2 l 0 (len l) = l.
Proof.
  rewrite getslice2_stop_past_end by (pose proof (len_nonneg l); lia). done.
Qed.

Lemma getslice2_len_in_range l (a b : Z) :
  0 ≤ a → a ≤ b → b ≤ len l → len (getslice2 l a b) = b - a.
Proof.
  intros. rewrite getslice2_in_range by done. unfold len in *.
  rewrite length_take, length_drop. lia.
Qed.

Lemma getslice2_stop_before_start l (a b : Z) :
  0 ≤ b → b ≤ a → getslice2 l a b = [].
Proof.
  intros. rewrite getslice2_take_drop.
  replace (Z.to_nat _) with 0%nat; [done|].
  pose proof (len_nonneg l). unfold adjust_index. repeat case_decide; lia.
Qed.

(** Slicing an in-range slice again is slicing the list once, with the
    inner offsets shifted by the outer start. *)
Lemma getslice2_getslice2 l (a b c d : Z) :
  0 ≤ a → a ≤ b → b ≤ len l →
  0 ≤ c → c ≤ d → d ≤ b - a →
  getslice2 (getslice2 l a b) c d = getslice2 l (a + c) (a + d).
Proof.
  intros. rewrite (getslice2_in_range (getslice2 l a b))
    by (rewrite ?getslice2_len_in_range; lia).
  rewrite (getslice2_in_range l a b) by lia.
  rewrite (getslice2_in_range l (a + c) (a + d)) by lia.
  replace (Z.to_nat (b - a)) with (Z.to_nat c + Z.to_nat (b - a - c))%nat by lia.
  rewrite <- take_drop_commute, take_take, drop_drop.
  f_equal; [lia|f_equal; lia].
Qed.

End SliceOfSlice.

(** ** Spans that keep the invariant *)

Lemma range_in_doc_start x : (range_in_doc x).1 = offset_in_doc x.
Proof.
  destruct x as [d|[owner a b l]]; [done|].
  unfold range_in_doc. by rewrite get_range_relative_to_doc_offset.
Qed.

(** Along a chain that keeps the invariant, every object lies within its
    root document and its text is the document's text at that place. *)
Lemma chain_invariant_text x :
  chain_invariant x →
  0 ≤ (range_in_doc x).1
  ∧ (range_in_doc x).1 ≤ (range_in_doc x).2
  ∧ (range_in_doc x).2 ≤ len (NEDoc_text (root_doc x))
  ∧ text x = getslice2 (NEDoc_text (root_doc x)) (range_in_doc x).1 (range_in_doc x).2.
Proof.
  induction x as [d|owner a b l IH] using Subspannable_chain_ind.
  - intros _. simpl. pose proof (len_nonneg (NEDoc_text d)).
    split_and!; [lia..|]. by rewrite getslice2_full.
  - intros [(Ha & Hab & Hb) Howner]. simpl in Ha, Hab, Hb.
    destruct (IH Howner) as (H0 & Hle & Hlen & Htext).
    cbn [range_in_doc root_doc]. rewrite get_range_relative_to_doc_offset.
    rewrite <- range_in_doc_start. cbn [fst snd].
    rewrite text_span.
    assert (len (text owner) = (range_in_doc owner).2 - (range_in_doc owner).1)
      as Hsize by (rewrite Htext; apply getslice2_len_in_range; lia).
    split_and!; [lia..|].
    rewrite Htext at 1. apply getslice2_getslice2; lia.
Qed.

(** X1: a slice whose start or stop is absent takes the default: the start
    is 0 and the stop is the length of the receiver's text when the span is
    built. The span of [slice(None, None)] has the receiver's whole text. *)
Theorem subspan_defaults (self : Subspannable) (span_label : option pystr) :
  (∀ step,
     subspan self (PySlice (Slice None None step)) span_label
     = ret (MkNESpan self 0 (len (text self)) span_label)
     ∧ text (MkNESpan self 0 (len (text self)) span_label) = text self)
  ∧ (∀ a step,
     subspan self (PySlice (Slice (Some a) None step)) span_label
     = ret (MkNESpan self a (len (text self)) span_label))
  ∧ (∀ b step,
     subspan self (PySlice (Slice None (Some b) step)) span_label
     = ret (MkNESpan self 0 b span_label))
  ∧ (∀ a,
     0 ≤ a →
     text (MkNESpan self a (len (text self)) span_label)
     = drop (Z.to_nat a) (text self))
  ∧ (∀ b,
     0 ≤ b →
     text (MkNESpan self 0 b span_label) = take (Z.to_nat b) (text self)).
Proof.
  split_and!.
  - intros step. rewrite subspan_slice. split; [done|].
    rewrite text_span. apply getslice2_full.
  - intros a step. rewrite subspan_slice. cbn [Py.start Py.stop default].
    by rewrite or_0_Some.
  - intros b step. by rewrite subspan_slice.
  - intros a Ha. rewrite text_span. by apply getslice2_stop_past_end.
  - intros b Hb. rewrite text_span, getslice2_take_drop.
    pose proof (len_nonneg (text self)) as Hlen.
    replace (adjust_index (len (text self)) 1 0) with 0
      by (unfold adjust_index; repeat case_decide; lia).
    rewrite Z.sub_0_r, drop_0.
    unfold adjust_index. repeat case_decide; try lia; [|done].
    unfold len in *. rewrite !take_ge by lia. done.
Qed.

Lemma subspan_defaults_witness :
  text (MkNESpan abcdef_doc 2 (len (text abcdef_doc)) None) = str "cdef"
  ∧ text (MkNESpan abcdef_doc 0 9 None) = str "abcdef".
Proof.
  destruct (subspan_defaults abcdef_doc None) as (_ & _ & _ & Hfrom & Hto).
  split.
  - rewrite (Hfrom 2); [reflexivity|lia].
  - rewrite (Hto 9); [reflexivity|lia].
Defined.

(** X2: a span that keeps the invariant has a text of [end - start]
    characters, the piece of its owner's text from [start] to [end]. *)
Theorem text_length_of_span_in_range (s : NESpan) :
  span_invariant s →
  len (text s) = (Span.range s).2 - (Span.range s).1
  ∧ text s = take (Z.to_nat ((Span.range s).2 - (Span.range s).1))
               (drop (Z.to_nat (Span.range s).1) (text (Span.doc s))).
Proof.
  destruct s as [owner a b l]. intros (Ha & Hab & Hb). simpl in *.
  split.
  - by apply getslice2_len_in_range.
  - by apply getslice2_in_range.
Qed.

Lemma text_length_of_span_in_range_witness :
  span_invariant world_foo ∧ len (text world_foo) = 9.
Proof.
  assert (span_invariant world_foo) as Hinv
    by (unfold span_invariant; vm_compute; split_and!; discriminate).
  split; [exact Hinv|].
  exact (proj1 (text_length_of_span_in_range world_foo Hinv)).
Defined.

(** X3: when every span of a chain keeps the invariant, the text of the
    span at the bottom is the root document's text sliced by the range that
    [get_range_relative_to_doc] returns. *)
Theorem text_is_root_text_at_range_relative_to_doc (s : NESpan) :
  chain_invariant s →
  text s = getslice2 (NEDoc_text (root_doc s))
             (get_range_relative_to_doc s).1 (get_range_relative_to_doc s).2.
Proof. intros Hinv. by destruct (chain_invariant_text s Hinv) as (_ & _ & _ & ?). Qed.

Lemma foo_in_world_foo_invariant : chain_invariant foo_in_world_foo.
Proof.
  unfold foo_in_world_foo, world_foo, chain_invariant, span_invariant.
  vm_compute. split_and!; (discriminate || exact I).
Defined.

Lemma text_is_root_text_at_range_relative_to_doc_witness :
  chain_invariant foo_in_world_foo
  ∧ get_range_relative_to_doc foo_in_world_foo = (12, 15)
  ∧ text foo_in_world_foo = getslice2 (NEDoc_text hello_doc) 12 15.
Proof.
  split_and!; [exact foo_in_world_foo_invariant|reflexivity|].
  exact (text_is_root_text_at_range_relative_to_doc
           foo_in_world_foo foo_in_world_foo_invariant).
Defined.

(** Without the invariant the two can differ: a stop past the end of the
    owner is cut when the text is read, not when the range is reported. *)
Example range_relative_to_doc_past_owner :
  text (MkNESpan cde_in_abcdef 0 10 None) = str "cde"
  ∧ get_range_relative_to_doc (MkNESpan cde_in_abcdef 0 10 None) = (2, 12)
  ∧ getslice2 (NEDoc_text abcdef_doc) 2 12 = str "cdef".
Proof. done. Qed.

(** X4: when every span of a chain keeps the invariant, the range that
    [get_range_relative_to_doc] returns lies within the root document, and
    its length is the length of the span's text. *)
Theorem range_relative_to_doc_within_document (s : NESpan) :
  chain_invariant s →
  0 ≤ (get_range_relative_to_doc s).1
  ∧ (get_range_relative_to_doc s).1 ≤ (get_range_relative_to_doc s).2
  ∧ (get_range_relative_to_doc s).2 ≤ len (NEDoc_text (root_doc s))
  ∧ len (text s) = (get_range_relative_to_doc s).2 - (get_range_relative_to_doc s).1.
Proof.
  intros Hinv.
  destruct (chain_invariant_text s Hinv) as (H0 & Hle & Hlen & Htext).
  cbn [range_in_doc] in *.
  split_and!; [done..|].
  rewrite Htext. by apply getslice2_len_in_range.
Qed.

Lemma range_relative_to_doc_within_document_witness :
  chain_invariant foo_in_world_foo
  ∧ (get_range_relative_to_doc foo_in_world_foo).2 ≤ len (NEDoc_text hello_doc)
  ∧ len (text foo_in_world_foo) = 15 - 12.
Proof.
  destruct (range_relative_to_doc_within_document
              foo_in_world_foo foo_in_world_foo_invariant) as (_ & _ & Hle & Hlen).
  split_and!; [exact foo_in_world_foo_invariant|exact Hle|exact Hlen].
Defined.

(** X5: the range relative to the document is the span's own range moved
    by where its owner starts in the document. It has the length of the
    span's own range, and no ancestor's end or label enters it. *)
Theorem get_range_relative_to_doc_composes :
  (∀ (parent : NESpan) (a b : Z) (l : option pystr),
     get_range_relative_to_doc (MkNESpan parent a b l)
     = ((get_range_relative_to_doc parent).1 + a,
        (get_range_relative_to_doc parent).1 + b))
  ∧ (∀ s : NESpan,
     (get_range_relative_to_doc s).2 - (get_range_relative_to_doc s).1
     = (Span.range s).2 - (Span.range s).1)
  ∧ (∀ (owner : Subspannable) (a b b' c d : Z) (l l' l2 : option pystr),
     get_range_relative_to_doc (MkNESpan (MkNESpan owner a b l) c d l2)
     = get_range_relative_to_doc (MkNESpan (MkNESpan owner a b' l') c d l2)).
Proof.
  split_and!.
  - intros [owner a' b' l'] a b l.
    rewrite !get_range_relative_to_doc_offset. done.
  - intros [owner a b l]. rewrite get_range_relative_to_doc_offset. simpl. lia.
  - intros. by rewrite !get_range_relative_to_doc_offset.
Qed.

(** A negative offset no further from the end than the text is long reads
    like the offset counted from the start. *)
Lemma getslice2_negative_start {A} (l : list A) (k e : Z) :
  0 < k → k ≤ len l → getslice2 l (- k) e = getslice2 l (len l - k) e.
Proof.
  intros. unfold getslice2. f_equal. f_equal.
  unfold adjust_index. repeat case_decide; lia.
Qed.

(** X6: a negative start is counted from the end of the owner's text when
    the text is read, but [get_range_relative_to_doc] adds it as it is. For
    [S1 = D.subspan([a, b))] in range and [S2 = S1.subspan(slice(-k, None))]
    with [0 < k <= b - a], the text of [S2] is [D.text[b-k:b]], the last
    [k] characters of [S1], and the range reported is [(a - k, b)]. *)
Theorem negative_start_read_from_end_reported_as_is
    (D : NEDoc) (a b k : Z) (l1 l2 : option pystr) :
  0 ≤ a → a ≤ b → b ≤ len (NEDoc_text D) →
  0 < k → k ≤ b - a →
  ∃ S2,
    subspan (MkNESpan D a b l1) (PySlice (Slice (Some (- k)) None None)) l2 = ret S2
    ∧ text S2 = getslice2 (NEDoc_text D) (b - k) b
    ∧ len (text S2) = k
    ∧ get_range_relative_to_doc S2 = (a - k, b).
Proof.
  intros Ha Hab Hb Hk Hkb.
  rewrite subspan_slice. cbn [Py.start Py.stop default].
  rewrite or_0_Some. eexists. split; [done|].
  assert (len (text (MkNESpan D a b l1)) = b - a) as Hlen
    by (rewrite text_span; by apply getslice2_len_in_range).
  rewrite Hlen.
  assert (text (MkNESpan (MkNESpan D a b l1) (- k) (b - a) l2)
          = getslice2 (NEDoc_text D) (b - k) b) as Htext.
  { rewrite text_span, getslice2_negative_start by lia.
    rewrite Hlen, text_span. cbn [text].
    rewrite getslice2_getslice2 by lia. f_equal; lia. }
  split_and!.
  - exact Htext.
  - rewrite Htext, getslice2_len_in_range by lia. lia.
  - rewrite get_range_relative_to_doc_offset. simpl. f_equal; lia.
Qed.

Lemma negative_start_read_from_end_reported_as_is_witness :
  ∃ S2,
    subspan cde_in_abcdef (PySlice (Slice (Some (- 2)) None None)) None = ret S2
    ∧ text S2 = getslice2 (NEDoc_text abcdef_doc) (5 - 2) 5
    ∧ len (text S2) = 2
    ∧ get_range_relative_to_doc S2 = (2 - 2, 5).
Proof.
  apply (negative_start_read_from_end_reported_as_is abcdef_doc 2 5 2 None None);
    vm_compute; (discriminate || reflexivity).
Defined.

(** ** More on spans by word index *)

Lemma getslice_elem_of {A} (l r : list A) (s : slice) (y : A) :
  getslice l s = ret r → y ∈ r → y ∈ l.
Proof.
  unfold getslice. destruct (slice_indices s (len l)) as [e|[[lo hi] st]]; [done|].
  rewrite bind_ret. intros [= <-] (q & _ & Hq)%list_elem_of_omap.
  by eapply list_elem_of_lookup_2.
Qed.

Lemma getslice_nil {A} (s : slice) :
  default 1 (Py.step s) ≠ 0 → getslice (@nil A) s = ret [].
Proof.
  intros Hstep. unfold getslice, slice_indices. rewrite decide_False by done.
  rewrite bind_ret. unfold ret. f_equal.
  induction (slice_positions _ _ _) as [|q qs IH]; [done|]. done.
Qed.

Section WordIndexFacts.
Variable TOKENIZER : pystr → list Token.

Lemma word_slice_in_range self (i j : Z) first last_ :
  0 ≤ i → i < j → j ≤ word_length TOKENIZER self →
  word_spans TOKENIZER self !! Z.to_nat i = Some first →
  word_spans TOKENIZER self !! Z.to_nat (j - 1) = Some last_ →
  ∃ rest,
    getslice (word_spans TOKENIZER self) (Slice (Some i) (Some j) None)
    = ret (first :: rest)
    ∧ last (first :: rest) = Some last_.
Proof.
  unfold word_length. set (l := word_spans TOKENIZER self).
  intros Hi Hij Hj Hfirst Hlast. unfold len in Hj.
  rewrite getslice_no_step, getslice2_in_range by (unfold len; lia).
  set (r := take _ _).
  assert (r !! 0%nat = Some first) as Hhead.
  { subst r. rewrite lookup_take_lt by lia.
    rewrite lookup_drop, Nat.add_0_r. done. }
  assert (length r = Z.to_nat (j - i)) as Hlen.
  { subst r. rewrite length_take, length_drop. lia. }
  rewrite <- head_lookup in Hhead. apply head_Some in Hhead as [rest Hr].
  exists rest. rewrite <- Hr. split; [done|].
  rewrite last_lookup, Hlen. subst r.
  rewrite lookup_take_lt by lia. rewrite lookup_drop.
  rewrite <- Hlast. f_equal. lia.
Qed.

(** X7: for word indices [0 <= i < j <= word_length()], the span of
    [slice(i, j)] runs from the start of word [i] to the end of word
    [j - 1], over the receiver, without a label. *)
Theorem subspan_by_word_indices_in_range self (i j : Z) first last_ :
  0 ≤ i → i < j → j ≤ word_length TOKENIZER self →
  word_spans TOKENIZER self !! Z.to_nat i = Some first →
  word_spans TOKENIZER self !! Z.to_nat (j - 1) = Some last_ →
  subspan_by_word_indices TOKENIZER self (Slice (Some i) (Some j) None)
  = ret (MkNESpan self first.1 last_.2 None).
Proof.
  intros Hi Hij Hj Hfirst Hlast.
  destruct (word_slice_in_range self i j first last_) as (rest & Hsel & Hl);
    [done..|].
  by rewrite (subspan_by_word_indices_nonempty _ _ _ _ _ _ Hsel Hl).
Qed.

(** X8: [subspan_by_word_indices] fails in two ways only. A zero step
    fails with [ValueError], whatever the start and the words; otherwise it
    fails only with the out-of-range [IndexError], when the start is greater
    than the word count, and the message holds the slice and the count. *)
Theorem subspan_by_word_indices_errors self word_slice :
  (∀ e,
     subspan_by_word_indices TOKENIZER self word_slice = raise e →
     (Py.step word_slice = Some 0 ∧ e = ValueError "slice step cannot be zero")
     ∨ (Py.step word_slice ≠ Some 0
        ∧ ∃ s, Py.start word_slice = Some s
               ∧ s > word_length TOKENIZER self
               ∧ e = IndexError
                       (out_of_range_message word_slice (word_length TOKENIZER self))))
  ∧ (Py.step word_slice = Some 0 →
     subspan_by_word_indices TOKENIZER self word_slice
     = raise (ValueError "slice step cannot be zero")).
Proof.
  split.
  - intros e.
    destruct (getslice (word_spans TOKENIZER self) word_slice) as [e'|[|first rest]]
      eqn:Hsel.
    + rewrite (subspan_by_word_indices_error _ _ _ _ Hsel).
      apply getslice_raises in Hsel as [Hstep ->]. intros [= <-]. by left.
    + rewrite (subspan_by_word_indices_empty _ _ _ Hsel).
      assert (Py.step word_slice ≠ Some 0) as Hstep.
      { intros Hstep. unfold getslice, slice_indices in Hsel.
        rewrite Hstep in Hsel. done. }
      destruct (Py.start word_slice) as [s|]; [case_decide|]; try done.
      intros [= <-]. right. split; [done|]. by exists s.
    + destruct (proj2 (last_is_Some (first :: rest))) as [last_ Hlast]; [done|].
      by rewrite (subspan_by_word_indices_nonempty _ _ _ _ _ _ Hsel Hlast).
  - intros Hstep. apply subspan_by_word_indices_error.
    unfold getslice, slice_indices. by rewrite Hstep.
Qed.

(** X9: on an object without words every word slice with a non-zero step
    selects nothing: the result is the span [(0, 0)], except that a start
    greater than 0 raises the out-of-range error. *)
Theorem subspan_by_word_indices_no_words self word_slice :
  word_length TOKENIZER self = 0 →
  default 1 (Py.step word_slice) ≠ 0 →
  subspan_by_word_indices TOKENIZER self word_slice
  = match Py.start word_slice with
    | Some s =>
        if decide (s > 0)
        then raise (IndexError (out_of_range_message word_slice 0))
        else ret (MkNESpan self 0 0 None)
    | None => ret (MkNESpan self 0 0 None)
    end.
Proof.
  intros Hcount Hstep.
  assert (word_spans TOKENIZER self = []) as Hnil.
  { unfold word_length, len in Hcount.
    destruct (word_spans TOKENIZER self); [done|simpl in Hcount; lia]. }
  assert (getslice (word_spans TOKENIZER self) word_slice = ret []) as Hsel
    by (rewrite Hnil; by apply getslice_nil).
  rewrite (subspan_by_word_indices_empty _ _ _ Hsel). by rewrite Hcount.
Qed.

(** X10: a span returned by [subspan_by_word_indices] is a span of the
    receiver without a label; it is the span [(0, 0)], or it starts where a
    word of the receiver starts and ends where a word of the receiver
    ends. *)
Theorem subspan_by_word_indices_on_word_boundaries self word_slice s :
  subspan_by_word_indices TOKENIZER self word_slice = ret s →
  Span.doc s = self
  ∧ Span.label s = None
  ∧ (Span.range s = (0, 0)
     ∨ ∃ first last_,
         first ∈ word_spans TOKENIZER self
         ∧ last_ ∈ word_spans TOKENIZER self
         ∧ Span.range s = (first.1, last_.2)).
Proof.
  destruct (getslice (word_spans TOKENIZER self) word_slice) as [e|[|first rest]]
    eqn:Hsel.
  - by rewrite (subspan_by_word_indices_error _ _ _ _ Hsel).
  - rewrite (subspan_by_word_indices_empty _ _ _ Hsel).
    destruct (Py.start word_slice); [case_decide|]; intros [= <-];
      split_and!; try done; by left.
  - destruct (proj2 (last_is_Some (first :: rest))) as [last_ Hlast]; [done|].
    rewrite (subspan_by_word_indices_nonempty _ _ _ _ _ _ Hsel Hlast).
    intros [= <-]. split_and!; [done|done|].
    right. exists first, last_. split_and!; [| |done].
    + eapply getslice_elem_of; [exact Hsel|]. apply elem_of_cons. by left.
    + eapply getslice_elem_of; [exact Hsel|]. by apply last_Some_elem_of.
Qed.

End WordIndexFacts.

Lemma subspan_by_word_indices_in_range_witness :
  subspan_by_word_indices whitespace_tokenizer hello_doc (Slice (Some 1) (Some 3) None)
  = ret (MkNESpan hello_doc 6 15 None).
Proof.
  apply (subspan_by_word_indices_in_range whitespace_tokenizer hello_doc 1 3
           (6, 11) (12, 15)); vm_compute; (discriminate || reflexivity).
Defined.

Lemma subspan_by_word_indices_errors_witness :
  subspan_by_word_indices whitespace_tokenizer hello_doc (Slice (Some 1) None (Some 0))
  = raise (ValueError "slice step cannot be zero")
  ∧ Py.step (Slice (Some 1) None (Some 0)) = Some 0.
Proof.
  destruct (subspan_by_word_indices_errors whitespace_tokenizer hello_doc
              (Slice (Some 1) None (Some 0))) as [Hall Hzero].
  destruct (Hall (ValueError "slice step cannot be zero") (Hzero eq_refl))
    as [[Hstep _]|[Hstep _]]; [|by destruct Hstep].
  split; [exact (Hzero eq_refl)|exact Hstep].
Defined.

Lemma subspan_by_word_indices_no_words_witness :
  word_length whitespace_tokenizer empty_doc = 0
  ∧ subspan_by_word_indices whitespace_tokenizer empty_doc (Slice (Some 1) None None)
    = raise (IndexError
               "Word indices out of range: slice(1, None, None). Document has 0 words.")
  ∧ subspan_by_word_indices whitespace_tokenizer empty_doc (Slice None None (Some (-1)))
    = ret (MkNESpan empty_doc 0 0 None).
Proof.
  split_and!.
  - reflexivity.
  - rewrite (subspan_by_word_indices_no_words whitespace_tokenizer empty_doc
               (Slice (Some 1) None None)); [reflexivity|reflexivity|discriminate].
  - rewrite (subspan_by_word_indices_no_words whitespace_tokenizer empty_doc
               (Slice None None (Some (-1)))); [reflexivity|reflexivity|discriminate].
Defined.

Lemma subspan_by_word_indices_on_word_boundaries_witness :
  subspan_by_word_indices whitespace_tokenizer hello_doc (Slice (Some (-2)) None None)
  = ret (MkNESpan hello_doc 6 15 None)
  ∧ Span.label (MkNESpan hello_doc 6 15 None) = None.
Proof.
  assert (subspan_by_word_indices whitespace_tokenizer hello_doc
            (Slice (Some (-2)) None None) = ret (MkNESpan hello_doc 6 15 None)) as Hrun
    by reflexivity.
  split; [exact Hrun|].
  exact (proj1 (proj2 (subspan_by_word_indices_on_word_boundaries
                         whitespace_tokenizer hello_doc _ _ Hrun))).
Defined.

(** ** Word slices with a negative step *)

Lemma omap_lookup_all {A} (l : list A) (ps : list Z) :
  Forall (fun q => 0 ≤ q < len l) ps →
  Forall2 (fun q x => l !! Z.to_nat q = Some x) ps
    (omap (fun i => l !! Z.to_nat i) ps).
Proof.
  induction 1 as [|q ps Hq Hps IH]; [constructor|].
  destruct (lookup_lt_is_Some_2 l (Z.to_nat q)) as [x Hx];
    [unfold len in Hq; lia|].
  cbn [omap list_omap]. rewrite Hx. by constructor.
Qed.

(** With a negative step the selection runs backwards: when more than one
    element is selected, the last one lies strictly before the first. *)
Lemma getslice_backward_ends {A} (l : list A) (s : slice) first rest last_ :
  default 1 (Py.step s) < 0 →
  getslice l s = ret (first :: rest) →
  rest ≠ [] →
  last (first :: rest) = Some last_ →
  ∃ i j : nat, (j < i)%nat ∧ l !! i = Some first ∧ l !! j = Some last_.
Proof.
  intros Hst. unfold getslice, slice_indices.
  rewrite decide_False by lia. rewrite bind_ret.
  set (lo := match Py.start s with Some i => _ | None => _ end).
  set (hi := match Py.stop s with Some i => _ | None => _ end).
  set (st := default 1 (Py.step s)) in *.
  pose proof (len_nonneg l) as Hlen.
  assert (lo ≤ len l - 1) as Hlo.
  { subst lo. destruct (Py.start s); [apply adjust_index_backward; lia|].
    case_decide; lia. }
  assert (-1 ≤ hi) as Hhi.
  { subst hi. destruct (Py.stop s); [apply adjust_index_backward; lia|].
    case_decide; lia. }
  intros [= Hsel] Hrest Hlast.
  set (k := slice_length lo hi st) in *.
  assert (0 ≤ k ∧ ∀ i, 0 ≤ i < k → hi < lo + i * st) as [Hk Hpos].
  { subst k. unfold slice_length. rewrite decide_True by lia.
    case_decide as Hlt; [|split; [lia|intros; lia]].
    pose proof (Z.div_pos (lo - hi - 1) (- st) ltac:(lia) ltac:(lia)).
    pose proof (Z.mul_div_le (lo - hi - 1) (- st) ltac:(lia)).
    split; [lia|]. intros i Hi. nia. }
  assert (Forall (fun q => 0 ≤ q < len l) (slice_positions lo hi st)) as Hall.
  { unfold slice_positions. apply Forall_fmap, Forall_forall.
    intros i Hi%elem_of_seqZ. simpl. fold k in Hi.
    specialize (Hpos i ltac:(lia)). nia. }
  apply omap_lookup_all in Hall. rewrite Hsel in Hall.
  pose proof (Forall2_length _ _ _ Hall) as Hsize.
  unfold slice_positions in Hsize, Hall.
  rewrite length_fmap, length_seqZ in Hsize. fold k in Hsize, Hall.
  cbn [length] in Hsize.
  assert (2 ≤ k) as Hk2.
  { destruct rest; [done|]. simpl in Hsize. lia. }
  rewrite last_lookup in Hlast. cbn [length pred] in Hlast.
  destruct (Forall2_lookup_r _ _ _ _ _ Hall Hlast) as (q & Hq & Hql).
  destruct (Forall2_lookup_r _ _ _ 0%nat first Hall eq_refl) as (q0 & Hq0 & Hq0l).
  rewrite list_lookup_fmap in Hq, Hq0.
  rewrite lookup_seqZ_lt in Hq by lia.
  rewrite lookup_seqZ_lt in Hq0 by lia.
  injection Hq as <-. injection Hq0 as <-.
  eexists _, _. split_and!; [|exact Hq0l|exact Hql].
  pose proof (Hpos (Z.of_nat (length rest)) ltac:(lia)).
  assert (0 < length rest)%nat by (destruct rest; [done|simpl; lia]).
  nia.
Qed.

Section BackwardWordSlices.
Variable TOKENIZER : pystr → list Token.

(** X11: with a negative step the start of the span comes from the first
    selected word, the rightmost, and its end from the last selected, the
    leftmost. Over tokens in text order, when more than one word is
    selected, the end is at or before the start and the span reads as
    empty text. *)
Theorem subspan_by_word_indices_backwards self word_slice first rest last_ :
  tokens_in_text (TOKENIZER (text self)) (text self) →
  default 1 (Py.step word_slice) < 0 →
  getslice (word_spans TOKENIZER self) word_slice = ret (first :: rest) →
  rest ≠ [] →
  last (first :: rest) = Some last_ →
  subspan_by_word_indices TOKENIZER self word_slice
  = ret (MkNESpan self first.1 last_.2 None)
  ∧ last_.2 ≤ first.1
  ∧ text (MkNESpan self first.1 last_.2 None) = [].
Proof.
  intros [Hall Hsorted]%word_spans_in_text Hstep Hsel Hrest Hlast.
  destruct (getslice_backward_ends _ _ _ _ _ Hstep Hsel Hrest Hlast)
    as (i & j & Hji & Hi & Hj).
  pose proof (Forall_lookup_1 _ _ _ _ Hall Hj) as Hlast_.
  pose proof (StronglySorted_lookup_lt _ _ j i _ _ Hsorted Hji Hj Hi) as Hbefore.
  simpl in Hlast_, Hbefore.
  split_and!.
  - by apply subspan_by_word_indices_nonempty with rest.
  - done.
  - rewrite text_span. apply getslice2_stop_before_start; lia.
Qed.

End BackwardWordSlices.

Lemma subspan_by_word_indices_backwards_witness :
  subspan_by_word_indices whitespace_tokenizer hello_doc (Slice None None (Some (-1)))
  = ret (MkNESpan hello_doc 12 5 None)
  ∧ text (MkNESpan hello_doc 12 5 None) = [].
Proof.
  destruct (subspan_by_word_indices_backwards whitespace_tokenizer hello_doc
              (Slice None None (Some (-1))) (12, 15) [(6, 11); (0, 5)] (0, 5))
    as (Hrun & _ & Htext);
    [exact hello_doc_tokens|reflexivity|reflexivity|discriminate|reflexivity|].
  split; [exact Hrun|exact Htext].
Defined.

(** ** What a serialised span holds *)

Lemma serialize_lookup_range self with_text :
  serialize self with_text !! "range"
  = Some (PyTuple [PyInt (Span.range self).1; PyInt (Span.range self).2]).
Proof. destruct with_text; unfold serialize; by simplify_map_eq. Qed.

Lemma serialize_lookup_label self with_text :
  serialize self with_text !! "label" = Some (py_label (Span.label self)).
Proof. destruct with_text; unfold serialize; by simplify_map_eq. Qed.

Lemma serialize_lookup_text self :
  serialize self true !! "text" = Some (PyStr (text self)).
Proof. unfold serialize; by simplify_map_eq. Qed.

Lemma py_label_inj l1 l2 : py_label l1 = py_label l2 → l1 = l2.
Proof. destruct l1, l2; simpl; congruence. Qed.

Lemma serialize_same_range_label s1 s2 with_text :
  serialize s1 with_text = serialize s2 with_text →
  Span.range s1 = Span.range s2 ∧ Span.label s1 = Span.label s2.
Proof.
  intros Heq.
  pose proof (serialize_lookup_range s1 with_text) as Hr.
  pose proof (serialize_lookup_label s1 with_text) as Hl.
  rewrite Heq, serialize_lookup_range in Hr.
  rewrite Heq, serialize_lookup_label in Hl.
  destruct s1 as [o1 a1 b1 l1], s2 as [o2 a2 b2 l2]. simpl in *.
  injection Hr as -> ->. injection Hl as Hl%py_label_inj. by subst.
Qed.

(** X12: the serialised structure holds the range, the label and, when
    asked for, the text of a span, and nothing else of it: two spans
    serialise alike exactly when they agree on these. The owner is not
    part of it. The structure without text is the one with text less its
    text field. *)
Theorem serialize_holds_range_label_text :
  (∀ s1 s2 : NESpan,
     serialize s1 false = serialize s2 false
     ↔ Span.range s1 = Span.range s2 ∧ Span.label s1 = Span.label s2)
  ∧ (∀ s1 s2 : NESpan,
     serialize s1 true = serialize s2 true
     ↔ Span.range s1 = Span.range s2 ∧ Span.label s1 = Span.label s2
       ∧ text s1 = text s2)
  ∧ (∀ (owner1 owner2 : Subspannable) (a b : Z) (l : option pystr),
     serialize (MkNESpan owner1 a b l) false = serialize (MkNESpan owner2 a b l) false)
  ∧ (∀ s : NESpan, delete "text" (serialize s true) = serialize s false).
Proof.
  split_and!.
  - intros s1 s2. split; [apply serialize_same_range_label|].
    destruct s1 as [o1 a1 b1 l1], s2 as [o2 a2 b2 l2]. simpl.
    by intros [[= -> ->] ->].
  - intros s1 s2. split.
    + intros Heq. destruct (serialize_same_range_label _ _ _ Heq) as [Hr Hl].
      split_and!; [done|done|].
      pose proof (serialize_lookup_text s1) as Ht.
      rewrite Heq, serialize_lookup_text in Ht. by injection Ht.
    + intros (Hr & Hl & Ht). rewrite !serialize_with_text, Ht. f_equal.
      destruct s1 as [o1 a1 b1 l1], s2 as [o2 a2 b2 l2]. simpl in *.
      injection Hr as -> ->. by subst.
  - done.
  - intros s. rewrite serialize_with_text. apply delete_insert_id.
    unfold serialize. by simplify_map_eq.
Qed.

(** X13: spans that hash the same tuple serialise alike, with or without
    text. *)
Theorem same_hashed_tuple_same_serialization (s1 s2 : NESpan) (with_text : bool) :
  hashed_tuple s1 = hashed_tuple s2 →
  serialize s1 with_text = serialize s2 with_text.
Proof.
  intros (Htext & Hr & Hl)%hashed_tuple_eq.
  destruct s1 as [o1 a1 b1 l1], s2 as [o2 a2 b2 l2]. simpl in *.
  injection Hr as -> ->. subst.
  unfold serialize. cbn [Span.range Span.label fst snd].
  rewrite !text_span, Htext. done.
Qed.

Lemma same_hashed_tuple_same_serialization_witness :
  hashed_tuple ab_in_abcX = hashed_tuple ab_in_abcY
  ∧ serialize ab_in_abcX true = serialize ab_in_abcY true.
Proof.
  assert (hashed_tuple ab_in_abcX = hashed_tuple ab_in_abcY) as Hkey by reflexivity.
  split; [exact Hkey|].
  exact (same_hashed_tuple_same_serialization ab_in_abcX ab_in_abcY true Hkey).
Defined.

(** ** The labels of each member *)







(** ** Word indices against the word count *)

Section WordCount.
Variable TOKENIZER : pystr → list Token.

Lemma word_slice_past_count self (i j : Z) :
  word_length TOKENIZER self < i →
  getslice (word_spans TOKENIZER self) (Slice (Some i) (Some j) None) = ret [].
Proof.
  unfold word_length. intros Hi.
  rewrite getslice_no_step, getslice2_start_past_end by lia. done.
Qed.

(** X15: [word_length()] is the bound of the word indices. For [i >= 0],
    [slice(i, i + 1)] gives the span of word [i] when [i] is less than the
    word count, the span [(0, 0)] when [i] equals it, and the out-of-range
    error when [i] is greater. *)
Theorem single_word_index self (i : Z) :
  0 ≤ i →
  (i < word_length TOKENIZER self →
   ∃ w, word_spans TOKENIZER self !! Z.to_nat i = Some w
        ∧ subspan_by_word_indices TOKENIZER self (Slice (Some i) (Some (i + 1)) None)
          = ret (MkNESpan self w.1 w.2 None))
  ∧ (i = word_length TOKENIZER self →
     subspan_by_word_indices TOKENIZER self (Slice (Some i) (Some (i + 1)) None)
     = ret (MkNESpan self 0 0 None))
  ∧ (word_length TOKENIZER self < i →
     subspan_by_word_indices TOKENIZER self (Slice (Some i) (Some (i + 1)) None)
     = raise (IndexError
                (out_of_range_message (Slice (Some i) (Some (i + 1)) None)
                   (word_length TOKENIZER self)))).
Proof.
  intros Hi. split_and!.
  - intros Hlt.
    destruct (lookup_lt_is_Some_2 (word_spans TOKENIZER self) (Z.to_nat i))
      as [w Hw]; [unfold word_length, len in Hlt; lia|].
    exists w. split; [done|].
    destruct (word_slice_in_range TOKENIZER self i (i + 1) w w)
      as (rest & Hsel & Hlast); [lia..|done| |].
    { by replace (i + 1 - 1) with i by lia. }
    by rewrite (subspan_by_word_indices_nonempty _ _ _ _ _ _ Hsel Hlast).
  - intros ->.
    rewrite (subspan_by_word_indices_empty _ _ _ (word_slice_from_count _ _ _)).
    cbn [Py.start]. by rewrite decide_False by lia.
  - intros Hgt.
    rewrite (subspan_by_word_indices_empty _ _ _
               (word_slice_past_count self i (i + 1) Hgt)).
    cbn [Py.start]. by rewrite decide_True by lia.
Qed.

Lemma subspan_by_word_indices_keeps_invariant self word_slice s :
  tokens_in_text (TOKENIZER (text self)) (text self) →
  0 < default 1 (Py.step word_slice) →
  subspan_by_word_indices TOKENIZER self word_slice = ret s →
  Span.doc s = self ∧ span_invariant s.
Proof.
  intros Htokens Hstep.
  destruct (getslice (word_spans TOKENIZER self) word_slice) as [e|[|first rest]]
    eqn:Hsel.
  - by rewrite (subspan_by_word_indices_error _ _ _ _ Hsel).
  - rewrite (subspan_by_word_indices_empty _ _ _ Hsel).
    pose proof (len_nonneg (text self)).
    destruct (Py.start word_slice); [case_decide|]; intros [= <-];
      (split; [done|]); unfold span_invariant; simpl; lia.
  - destruct (proj2 (last_is_Some (first :: rest))) as [last_ Hlast]; [done|].
    rewrite (subspan_by_word_indices_nonempty _ _ _ _ _ _ Hsel Hlast).
    intros [= <-]. split; [done|].
    unfold span_invariant. cbn [Span.range Span.doc fst snd].
    by eapply selected_words_in_order.
Qed.

(** X16: from a receiver whose chain keeps the invariant, over tokens in
    text order and with a step that is absent or positive, the span that
    [subspan_by_word_indices] returns keeps the invariant along its chain,
    and its text is the root document's text sliced by its
    [get_range_relative_to_doc]. *)
Theorem words_are_found_in_root_document self word_slice s :
  tokens_in_text (TOKENIZER (text self)) (text self) →
  chain_invariant self →
  0 < default 1 (Py.step word_slice) →
  subspan_by_word_indices TOKENIZER self word_slice = ret s →
  chain_invariant s
  ∧ root_doc s = root_doc self
  ∧ text s = getslice2 (NEDoc_text (root_doc self))
               (get_range_relative_to_doc s).1 (get_range_relative_to_doc s).2.
Proof.
  intros Htokens Hchain Hstep Hrun.
  destruct (subspan_by_word_indices_keeps_invariant _ _ _ Htokens Hstep Hrun)
    as [Hdoc Hinv].
  destruct s as [owner a b l]. simpl in Hdoc. subst owner.
  assert (chain_invariant (MkNESpan self a b l)) as Hs by done.
  split_and!; [done|done|].
  by destruct (chain_invariant_text _ Hs) as (_ & _ & _ & ?).
Qed.

End WordCount.

Lemma single_word_index_witness :
  subspan_by_word_indices whitespace_tokenizer hello_doc (Slice (Some 1) (Some (1 + 1)) None)
  = ret (MkNESpan hello_doc 6 11 None)
  ∧ subspan_by_word_indices whitespace_tokenizer hello_doc (Slice (Some 3) (Some (3 + 1)) None)
    = ret (MkNESpan hello_doc 0 0 None)
  ∧ subspan_by_word_indices whitespace_tokenizer hello_doc (Slice (Some 4) (Some (4 + 1)) None)
    = raise (IndexError
               "Word indices out of range: slice(4, 5, None). Document has 3 words.").
Proof.
  split_and!.
  - destruct (single_word_index whitespace_tokenizer hello_doc 1 ltac:(lia))
      as (Hword & _ & _).
    destruct (Hword eq_refl) as (w & Hw & Hrun).
    injection Hw as <-. exact Hrun.
  - destruct (single_word_index whitespace_tokenizer hello_doc 3 ltac:(lia))
      as (_ & Hcount & _).
    exact (Hcount eq_refl).
  - destruct (single_word_index whitespace_tokenizer hello_doc 4 ltac:(lia))
      as (_ & _ & Hpast).
    rewrite (Hpast eq_refl). reflexivity.
Defined.

Lemma world_foo_tokens :
  tokens_in_text (whitespace_tokenizer (text world_foo)) (text world_foo).
Proof.
  split.
  - vm_compute. repeat (constructor; [split_and!; discriminate|]). constructor.
  - vm_compute.
    repeat (constructor; [|repeat (constructor; [discriminate|]); constructor]).
    constructor.
Defined.

Lemma world_foo_invariant : chain_invariant world_foo.
Proof.
  unfold world_foo, chain_invariant, span_invariant.
  vm_compute. split_and!; (discriminate || exact I).
Defined.

Lemma words_are_found_in_root_document_witness :
  subspan_by_word_indices whitespace_tokenizer world_foo (Slice (Some 1) None None)
  = ret foo_in_world_foo
  ∧ text foo_in_world_foo = getslice2 (NEDoc_text hello_doc) 12 15.
Proof.
  assert (subspan_by_word_indices whitespace_tokenizer world_foo
            (Slice (Some 1) None None) = ret foo_in_world_foo) as Hrun by reflexivity.
  split; [exact Hrun|].
  destruct (words_are_found_in_root_document whitespace_tokenizer world_foo
              (Slice (Some 1) None None) foo_in_world_foo
              world_foo_tokens world_foo_invariant ltac:(simpl; lia) Hrun)
    as (_ & _ & Htext).
  exact Htext.
Defined.
